(** * Image transformation service (src/main.py): validation, dispatch and
    error mapping of POST /transform.

    The Python handler is embedded as pure functions over JSON values.
    Exceptions are values of an explicit type with Python's class hierarchy,
    so that each [except] clause is a subclass test in source order.
    The standard library's base64 codec is modelled byte by byte after
    CPython's binascii; Pillow is an interface ([Imaging]) the handler is
    parameterised by. *)

From Stdlib Require Import ZArith NArith Lia List Bool.
From Stdlib Require Import Strings.String Strings.Ascii Strings.Byte.
From Stdlib Require Import Numbers.DecimalString.
From Stdlib Require Import Floats.PrimFloat.
From stdpp Require Import base option gmap strings.

Import ListNotations.
Set Warnings "-register-all".
Local Open Scope string_scope.
Local Open Scope Z_scope.

(** ** Python values and exceptions *)

Module Py.

(** What [json.loads] produces: None, bool, int, float, str, list, dict.
    Nested objects keep their insertion order. A str is a [string] whose
    characters stand for the code points of the same number, so code
    points up to 255 are covered; those from 128 on are the non-ASCII
    ones. *)
Inductive json : Type :=
| JNull
| JBool (b : bool)
| JInt (z : Z)
| JFloat (f : float)
| JStr (s : string)
| JList (l : list json)
| JDict (d : list (string * json)).

(** [type(v).__name__] *)
Definition type_name (v : json) : string :=
  match v with
  | JNull => "NoneType"
  | JBool _ => "bool"
  | JInt _ => "int"
  | JFloat _ => "float"
  | JStr _ => "str"
  | JList _ => "list"
  | JDict _ => "dict"
  end.

(** [v is None] *)
Definition is_None (v : json) : bool :=
  match v with JNull => true | _ => false end.

(** [v == "lit"] for a string literal: only a str with the same contents
    compares equal. *)
Definition eq_str (v : json) (lit : string) : bool :=
  match v with
  | JStr s => String.eqb s lit
  | _ => false
  end.

(** Exception classes, single inheritance below [Exception]. *)
Inductive exc_type : Type :=
| Exception
| Subclass (name : string) (base : exc_type).

Definition ValueError : exc_type := Subclass "ValueError" Exception.
Definition TypeError : exc_type := Subclass "TypeError" Exception.
Definition KeyError : exc_type :=
  Subclass "KeyError" (Subclass "LookupError" Exception).
Definition OSError : exc_type := Subclass "OSError" Exception.
(** [class Error(ValueError)] in binascii *)
Definition binascii_Error : exc_type := Subclass "binascii.Error" ValueError.
(** [class UnidentifiedImageError(OSError)] in PIL *)
Definition UnidentifiedImageError : exc_type :=
  Subclass "UnidentifiedImageError" OSError.
(** fastapi.HTTPException derives from starlette's, which derives from
    Exception. *)
Definition HTTPException_type : exc_type :=
  Subclass "fastapi.HTTPException"
    (Subclass "starlette.HTTPException" Exception).

Fixpoint exc_type_eqb (c d : exc_type) : bool :=
  match c, d with
  | Exception, Exception => true
  | Subclass n b, Subclass n' b' => String.eqb n n' && exc_type_eqb b b'
  | _, _ => false
  end.

(** [issubclass(c, d)] *)
Fixpoint issubclass (c d : exc_type) : bool :=
  exc_type_eqb c d ||
  match c with
  | Exception => false
  | Subclass _ b => issubclass b d
  end.

(** A raised exception: an ordinary one with its class and [str(e)], or an
    HTTPException carrying status code and detail. *)
Inductive exn : Type :=
| Exc (cls : exc_type) (msg : string)
| HTTPException (status_code : Z) (detail : json).

Definition class_of (e : exn) : exc_type :=
  match e with
  | Exc c _ => c
  | HTTPException _ _ => HTTPException_type
  end.

(** [isinstance(e, c)], the test an [except c] clause performs *)
Definition isinstance (e : exn) (c : exc_type) : bool :=
  issubclass (class_of e) c.

(** Decimal rendering of integers, as [str(int)] *)
Definition str_Z (z : Z) : string := NilZero.string_of_int (Z.to_int z).
Definition str_N (n : N) : string := NilZero.string_of_uint (N.to_uint n).

(** [repr(s)] of a str. Exact for strings without quotes, backslashes or
    non-printable characters, which covers every string the handler puts
    through repr. *)
Definition repr_str (s : string) : string := "'" ++ s ++ "'".

Definition join_with (sep : string) (parts : list string) : string :=
  match parts with
  | [] => EmptyString
  | p :: ps => fold_left (fun acc q => acc ++ sep ++ q) ps p
  end.

(** [repr] of a list of str, as the f-string of [missing_fields] prints it *)
Definition repr_str_list (l : list string) : string :=
  "[" ++ join_with ", " (map repr_str l) ++ "]".

(** [repr] of JSON values without floats inside; a float prints as
    [<float>] (no such value reaches repr in the handler). *)
Fixpoint repr (v : json) : string :=
  match v with
  | JNull => "None"
  | JBool true => "True"
  | JBool false => "False"
  | JInt z => str_Z z
  | JFloat _ => "<float>"
  | JStr s => repr_str s
  | JList l => "[" ++ join_with ", " (map repr l) ++ "]"
  | JDict d =>
      "{" ++ join_with ", "
               (map (fun kv => repr_str (fst kv) ++ ": " ++ repr (snd kv)) d)
          ++ "}"
  end.

(** [str(e)]. Starlette's HTTPException defines
    [__str__] as [f"{status_code}: {detail}"]. *)
Definition str_exn (e : exn) : string :=
  match e with
  | Exc _ msg => msg
  | HTTPException sc d => str_Z sc ++ ": " ++ repr d
  end.

(** Outcome of running Python code: a value or a raised exception. *)
Inductive result (A : Type) : Type :=
| Return (a : A)
| Raise (e : exn).
Arguments Return {A} a.
Arguments Raise {A} e.

Definition bind {A B} (m : result A) (k : A -> result B) : result B :=
  match m with
  | Return a => k a
  | Raise e => Raise e
  end.

(** [try: m  except Exception as e: h e] *)
Definition try_except {A} (m : result A) (h : exn -> result A) : result A :=
  match m with
  | Return a => Return a
  | Raise e => h e
  end.

End Py.
Import Py.

Notation "'do' x <- m ; k" := (Py.bind m (fun x => k))
  (at level 10, x name, m at level 100, k at level 200,
   format "'[v' 'do'  x  <-  m ; '/' k ']'").

(** ** base64 (standard library)

    [base64.b64decode(s)] with the default [validate=False] and
    [base64.b64encode], after CPython's [Lib/base64.py] and
    [Modules/binascii.c]. *)

Module Base64.

Definition bytes : Type := list byte.

Definition BASE64_PAD : ascii := "="%char.

Definition alphabet : string :=
  "ABCDEFGHIJKLMNOPQRSTUVWXYZabcdefghijklmnopqrstuvwxyz0123456789+/".

(** [table_b2a_base64[n]] *)
Definition table_b2a_base64 (n : N) : ascii :=
  match String.get (N.to_nat n) alphabet with
  | Some c => c
  | None => BASE64_PAD
  end.

(** [table_a2b_base64[c]]; [None] stands for the table's out-of-alphabet
    marker (a value of 64 or more). *)
Definition table_a2b_base64 (c : ascii) : option N :=
  let n := N_of_ascii c in
  if ((65 <=? n) && (n <=? 90))%N then Some (n - 65)%N
  else if ((97 <=? n) && (n <=? 122))%N then Some (n - 97 + 26)%N
  else if ((48 <=? n) && (n <=? 57))%N then Some (n - 48 + 52)%N
  else if (n =? 43)%N then Some 62%N
  else if (n =? 47)%N then Some 63%N
  else None.

(** Store into an [unsigned char]. *)
Definition to_byte (n : N) : byte :=
  match Byte.of_N (n mod 256) with
  | Some b => b
  | None => x00
  end.

Definition Error (msg : string) : exn := Exc binascii_Error msg.

(** The decoding loop of [binascii.a2b_base64] in non-strict mode.
    [n_out] is the number of bytes written so far
    ([bin_data - bin_data_start]); a [Return] carries the bytes written
    from here on. Characters outside the alphabet are skipped. *)
Fixpoint a2b_loop (data : string) (quad_pos leftchar pads n_out : N)
  : result bytes :=
  match data with
  | EmptyString =>
      if (quad_pos =? 0)%N then Return []
      else if (quad_pos =? 1)%N then
        Raise (Error ("Invalid base64-encoded string: number of data characters ("
                      ++ str_N (n_out / 3 * 4 + 1)
                      ++ ") cannot be 1 more than a multiple of 4"))
      else Raise (Error "Incorrect padding")
  | String this_ch rest =>
      if Ascii.eqb this_ch BASE64_PAD then
        if (2 <=? quad_pos)%N then
          let pads := (pads + 1)%N in
          if (4 <=? quad_pos + pads)%N then Return []
          else a2b_loop rest quad_pos leftchar pads n_out
        else a2b_loop rest quad_pos leftchar pads n_out
      else
        match table_a2b_base64 this_ch with
        | None => a2b_loop rest quad_pos leftchar pads n_out
        | Some this_ch =>
            match quad_pos with
            | 0%N => a2b_loop rest 1 this_ch 0 n_out
            | 1%N =>
                do out <- a2b_loop rest 2 (N.land this_ch 15) 0 (n_out + 1);
                Return (to_byte (N.lor (N.shiftl leftchar 2)
                                       (N.shiftr this_ch 4)) :: out)
            | 2%N =>
                do out <- a2b_loop rest 3 (N.land this_ch 3) 0 (n_out + 1);
                Return (to_byte (N.lor (N.shiftl leftchar 4)
                                       (N.shiftr this_ch 2)) :: out)
            | _ =>
                do out <- a2b_loop rest 0 0 0 (n_out + 1);
                Return (to_byte (N.lor (N.shiftl leftchar 6) this_ch) :: out)
            end
        end
  end.

Definition a2b_base64 (data : string) : result bytes :=
  a2b_loop data 0 0 0 0.

Fixpoint is_ascii (s : string) : bool :=
  match s with
  | EmptyString => true
  | String c rest => (N_of_ascii c <? 128)%N && is_ascii rest
  end.

(** [base64.b64decode(s)]: [_bytes_from_decode_data] followed by
    [binascii.a2b_base64]. *)
Definition b64decode (s : json) : result bytes :=
  match s with
  | JStr s =>
      if is_ascii s then a2b_base64 s
      else Raise (Exc ValueError
                    "string argument should contain only ASCII characters")
  | v =>
      Raise (Exc TypeError
               ("argument should be a bytes-like object or ASCII string, not "
                ++ repr_str (type_name v)))
  end.

(** [binascii.b2a_base64(data, newline=False)], three input bytes at a
    time. *)
Fixpoint b2a_base64 (data : bytes) : string :=
  match data with
  | [] => EmptyString
  | [a] =>
      let a := Byte.to_N a in
      String (table_b2a_base64 (N.shiftr a 2))
        (String (table_b2a_base64 (N.shiftl (N.land a 3) 4))
           (String BASE64_PAD (String BASE64_PAD EmptyString)))
  | [a; b] =>
      let a := Byte.to_N a in
      let b := Byte.to_N b in
      String (table_b2a_base64 (N.shiftr a 2))
        (String (table_b2a_base64
                   (N.lor (N.shiftl (N.land a 3) 4) (N.shiftr b 4)))
           (String (table_b2a_base64 (N.shiftl (N.land b 15) 2))
              (String BASE64_PAD EmptyString)))
  | a :: b :: c :: rest =>
      let a := Byte.to_N a in
      let b := Byte.to_N b in
      let c := Byte.to_N c in
      String (table_b2a_base64 (N.shiftr a 2))
        (String (table_b2a_base64
                   (N.lor (N.shiftl (N.land a 3) 4) (N.shiftr b 4)))
           (String (table_b2a_base64
                      (N.lor (N.shiftl (N.land b 15) 2) (N.shiftr c 6)))
              (String (table_b2a_base64 (N.land c 63))
                 (b2a_base64 rest))))
  end.

(** [base64.b64encode(data).decode("utf-8")] *)
Definition b64encode (data : bytes) : string := b2a_base64 data.

(** Bytes of an ASCII string literal, for writing inputs. *)
Definition bytes_of_string (s : string) : bytes :=
  map byte_of_ascii (list_ascii_of_string s).

End Base64.
Import Base64.

(** *** Checks on the base64 tables and on 6-bit regrouping *)

Section Base64Checks.
Local Open Scope N_scope.

(** An alphabet character is not the pad, decodes to its index and is
    ASCII. *)
Definition table_ok (n : N) : bool :=
  let c := table_b2a_base64 n in
  negb (Ascii.eqb c BASE64_PAD)
  && match table_a2b_base64 c with Some m => m =? n | None => false end
  && (N_of_ascii c <? 128).

(** The four 6-bit groups of three bytes, as [b2a_base64] forms them. *)
Definition sextet0 (a : N) : N := N.shiftr a 2.
Definition sextet1 (a b : N) : N :=
  N.lor (N.shiftl (N.land a 3) 4) (N.shiftr b 4).
Definition sextet2 (b c : N) : N :=
  N.lor (N.shiftl (N.land b 15) 2) (N.shiftr c 6).
Definition sextet3 (c : N) : N := N.land c 63.

Definition regroup_ok (x y : N) : bool :=
  (sextet0 x <? 64) && (sextet1 x y <? 64)
  && (sextet2 x y <? 64) && (sextet3 x <? 64)
  && (N.lor (N.shiftl (sextet0 x) 2) (N.shiftr (sextet1 x y) 4) =? x)
  && (N.land (sextet1 x y) 15 =? N.shiftr y 4)
  && (N.lor (N.shiftl (N.shiftr x 4) 4) (N.shiftr (sextet2 x y) 2) =? x)
  && (N.land (sextet2 x y) 3 =? N.shiftr y 6)
  && (N.lor (N.shiftl (N.shiftr x 6) 6) (sextet3 x) =? x).

End Base64Checks.

(** ** Pillow, as far as the handler uses it *)

(** The calls the handler makes on PIL, each returning an image or raising.
    Arguments that come straight from the request are JSON values: the
    handler passes them on unchecked. [Image_size] and [Image_format] are
    the attributes [size] and [format] of an opened image. *)
Class Imaging : Type := {
  Image : Type;
  (** [Image.open(io.BytesIO(data))] *)
  Image_open : bytes -> result Image;
  (** [image.convert(mode)] *)
  Image_convert : Image -> string -> result Image;
  (** [image.rotate(angle, expand=expand)] *)
  Image_rotate : Image -> json -> bool -> result Image;
  (** [image.resize((width, height))] *)
  Image_resize : Image -> json * json -> result Image;
  (** [image.save(buffered, format=fmt); buffered.getvalue()] *)
  Image_save : Image -> string -> result bytes;
  Image_size : Image -> Z * Z;
  Image_format : Image -> option string
}.

(** ** The service (src/main.py)

    Calls to [logging] have no effect on what is returned or raised and are
    left out. *)

Module Main.

(** The request body, a JSON object parsed into a Python dict. *)
Abbreviation dict := (gmap string json).

(** [k in data] *)
Definition contains (data : dict) (k : string) : bool :=
  match data !! k with Some _ => true | None => false end.

(** [data.get(k, default)] *)
Definition get (data : dict) (k : string) (default : json) : json :=
  match data !! k with Some v => v | None => default end.

(** [data[k]] *)
Definition getitem (data : dict) (k : string) : result json :=
  match data !! k with
  | Some v => Return v
  | None => Raise (Exc KeyError (repr_str k))
  end.

(** [v <= 0] for a request value [v]: ints, bools and floats compare,
    anything else raises TypeError. *)
Definition le_zero (v : json) : result bool :=
  match v with
  | JInt z => Return (z <=? 0)
  | JBool b => Return ((if b then 1 else 0) <=? 0)
  | JFloat f => Return (PrimFloat.leb f PrimFloat.zero)
  | _ =>
      Raise (Exc TypeError
               ("'<=' not supported between instances of "
                ++ repr_str (type_name v) ++ " and 'int'"))
  end.

Record response : Type := { status : Z; content : json }.

Definition HTTP_422_UNPROCESSABLE_ENTITY : Z := 422.

Definition required_fields : list string := ["image"; "transformation_type"].

Definition correct_format : json :=
  JDict [("image", JStr "<Base64-encoded-image>");
         ("transformation_type", JStr "<grayscale|rotate|resize>");
         ("rotation_angle", JStr "<integer>");
         ("width", JStr "<positive integer>");
         ("height", JStr "<positive integer>")].

Definition correct_format_resize : json :=
  JDict [("image", JStr "<Base64-encoded-image>");
         ("transformation_type", JStr "resize");
         ("width", JStr "<positive integer>");
         ("height", JStr "<positive integer>")].

Definition correct_format_rotate : json :=
  JDict [("image", JStr "<Base64-encoded-image>");
         ("transformation_type", JStr "rotate");
         ("rotation_angle", JStr "<integer>")].

Definition missing_fields (data : dict) : list string :=
  List.filter (fun field => negb (contains data field)) required_fields.

Definition validate_input (data : dict) : result dict :=
  match missing_fields data with
  | _ :: _ =>
      Raise (HTTPException HTTP_422_UNPROCESSABLE_ENTITY
               (JDict [("error",
                        JStr ("Missing required fields: "
                              ++ repr_str_list (missing_fields data)));
                       ("correct_format", correct_format)]))
  | [] =>
      do t <- getitem data "transformation_type";
      if eq_str t "resize"
         && (is_None (get data "width" JNull)
             || is_None (get data "height" JNull))
      then
        Raise (HTTPException HTTP_422_UNPROCESSABLE_ENTITY
                 (JDict [("error",
                          JStr "Width and height must be provided for resize transformation.");
                         ("correct_format", correct_format_resize)]))
      else
        do t <- getitem data "transformation_type";
        if eq_str t "rotate" && is_None (get data "rotation_angle" JNull)
        then
          Raise (HTTPException HTTP_422_UNPROCESSABLE_ENTITY
                   (JDict [("error",
                            JStr "Rotation angle must be provided for rotate transformation.");
                           ("correct_format", correct_format_rotate)]))
        else Return data
  end.

Section Handler.
Context {PIL : Imaging}.

Definition process_image (image : Image) (transformation_type : json)
    (rotation_angle width height : json) : result Image :=
  if eq_str transformation_type "grayscale" then Image_convert image "L"
  else if eq_str transformation_type "rotate" then
    Image_rotate image rotation_angle true
  else if eq_str transformation_type "resize" then
    do w_le <- le_zero width;
    do bad <- (if w_le : bool then Return true else le_zero height);
    if bad : bool then
      Raise (Exc ValueError
               "Width and height must be positive integers for resizing.")
    else Image_resize image (width, height)
  else Raise (Exc ValueError "Invalid transformation type").

Definition invalid_image_file : json :=
  JDict [("detail",
          JStr "Invalid image file. Ensure the image is a valid Base64 encoded string representing an image.")].

Definition invalid_image_provided : json :=
  JDict [("detail",
          JStr "Invalid image provided. Ensure the image is a valid Base64 encoded string representing an image.")].

(** The body of the outer [try] of [transform_image]. *)
Definition transform_image_try (request_data : dict) : result string :=
  do _t <- getitem request_data "transformation_type";
  do b64 <- getitem request_data "image";
  do image_data <- b64decode b64;
  do image <- try_except (Image_open image_data)
                (fun e => Raise (HTTPException 400 invalid_image_file));
  do t <- getitem request_data "transformation_type";
  do transformed_image <-
    process_image image t
      (get request_data "rotation_angle" (JInt 0))
      (get request_data "width" (JInt 0))
      (get request_data "height" (JInt 0));
  do buffered <- Image_save transformed_image "JPEG";
  Return (b64encode buffered).

(** The [except] clauses of [transform_image], tried in source order. *)
Definition transform_image_except (e : exn) : result string :=
  if isinstance e UnidentifiedImageError then
    Raise (HTTPException 400 invalid_image_provided)
  else if isinstance e ValueError then
    Raise (HTTPException 400
             (JDict [("detail",
                      JStr ("Invalid transformation type or parameter: "
                            ++ str_exn e ++ "."))]))
  else
    Raise (HTTPException 500
             (JDict [("detail",
                      JStr ("Internal server error: " ++ str_exn e))])).

Definition transform_image (request_data : dict) : result string :=
  try_except (transform_image_try request_data) transform_image_except.

(** POST /transform as the framework serves it: the dependency
    [validate_input] runs first; a returned [TransformResponse] becomes a
    200 response, a raised [HTTPException] a response with its status code
    and [{"detail": detail}]; any other exception is the server's plain
    500. *)
Definition post_transform (data : dict) : response :=
  match (do request_data <- validate_input data;
         transform_image request_data) with
  | Return transformed_image =>
      {| status := 200;
         content := JDict [("transformed_image", JStr transformed_image)] |}
  | Raise (HTTPException status_code detail) =>
      {| status := status_code; content := JDict [("detail", detail)] |}
  | Raise (Exc _ _) =>
      {| status := 500; content := JStr "Internal Server Error" |}
  end.

End Handler.
End Main.
Import Main.

(** ** An executable imaging library

    An instance of [Imaging] that works on image headers only; pixel data
    is not interpreted. [Image_open] reads the header of a binary PGM or
    PPM file (a subset of what Pillow's PPM plugin accepts) and the frame
    header of the JPEG stream that [Image_save] writes. The examples and
    witnesses below run the handler on it; the theorems hold for every
    instance. *)

Module HeaderImaging.

Record image : Type := {
  format : option string;
  mode : string;
  size : Z * Z
}.

Definition unidentified : exn :=
  Exc UnidentifiedImageError "cannot identify image file".

Definition is_space (b : byte) : bool :=
  let n := Byte.to_N b in ((9 <=? n) && (n <=? 13) || (n =? 32))%N.

Definition digit_of (b : byte) : option Z :=
  let n := Byte.to_N b in
  if ((48 <=? n) && (n <=? 57))%N then Some (Z.of_N n - 48) else None.

Fixpoint skip_space (data : bytes) : bytes :=
  match data with
  | b :: rest => if is_space b then skip_space rest else data
  | [] => []
  end.

(** Digits up to the whitespace byte that ends the token, which is
    consumed. *)
Fixpoint read_digits (data : bytes) (acc : Z) : option (Z * bytes) :=
  match data with
  | b :: rest =>
      match digit_of b with
      | Some d => read_digits rest (10 * acc + d)
      | None => if is_space b then Some (acc, rest) else None
      end
  | [] => None
  end.

Definition read_token (data : bytes) : option (Z * bytes) :=
  match skip_space data with
  | b :: rest =>
      match digit_of b with
      | Some d => read_digits rest d
      | None => None
      end
  | [] => None
  end.

Definition open_pnm (mode : string) (header : bytes) : result image :=
  match read_token header with
  | Some (xsize, r1) =>
      match read_token r1 with
      | Some (ysize, r2) =>
          match read_token r2 with
          | Some (maxval, _) =>
              if (0 <? xsize) && (0 <? ysize)
                 && (0 <? maxval) && (maxval <? 65536)
              then Return {| format := Some "PPM"; mode := mode;
                             size := (xsize, ysize) |}
              else Raise unidentified
          | None => Raise unidentified
          end
      | None => Raise unidentified
      end
  | None => Raise unidentified
  end.

Definition be16 (hi lo : byte) : Z :=
  Z.of_N (Byte.to_N hi) * 256 + Z.of_N (Byte.to_N lo).

Definition open (data : bytes) : result image :=
  match data with
  | x50 :: x35 :: header => open_pnm "L" header
  | x50 :: x36 :: header => open_pnm "RGB" header
  | xff :: xd8 :: xff :: xc0 :: x00 :: x0b :: x08
        :: yh :: yl :: xh :: xl :: ncomp :: _ =>
      Return {| format := Some "JPEG";
                mode := if Byte.eqb ncomp x01 then "L" else "RGB";
                size := (be16 xh xl, be16 yh yl) |}
  | _ => Raise unidentified
  end.

Definition convert (im : image) (m : string) : result image :=
  if String.eqb m "L" || String.eqb m "RGB" then
    Return {| format := None; mode := m; size := size im |}
  else Raise (Exc ValueError "conversion not supported").

(** Quarter turns only: other angles need the trigonometry this instance
    leaves out. *)
Definition rotate (im : image) (angle : json) (expand : bool)
  : result image :=
  match angle with
  | JInt a =>
      if a mod 180 =? 0 then
        Return {| format := None; mode := mode im; size := size im |}
      else if a mod 90 =? 0 then
        Return {| format := None; mode := mode im;
                  size := if expand then (snd (size im), fst (size im))
                          else size im |}
      else Raise (Exc (Subclass "NotImplementedError"
                         (Subclass "RuntimeError" Exception))
                    "angle is not a multiple of 90")
  | _ =>
      Raise (Exc TypeError
               ("unsupported operand type(s) for %: "
                ++ repr_str (type_name angle) ++ " and 'float'"))
  end.

Definition resize (im : image) (sz : json * json) : result image :=
  match sz with
  | (JInt w, JInt h) =>
      if (0 <? w) && (0 <? h) then
        Return {| format := None; mode := mode im; size := (w, h) |}
      else Raise (Exc ValueError "height and width must be > 0")
  | (JInt _, v) | (v, _) =>
      Raise (Exc TypeError
               (repr_str (type_name v)
                ++ " object cannot be interpreted as an integer"))
  end.

Definition save (im : image) (fmt : string) : result bytes :=
  if negb (String.eqb fmt "JPEG") then
    Raise (Exc KeyError (repr_str fmt))
  else if negb (String.eqb (mode im) "L" || String.eqb (mode im) "RGB") then
    Raise (Exc OSError ("cannot write mode " ++ mode im ++ " as JPEG"))
  else
    let '(w, h) := size im in
    if (0 <? w) && (w <? 65536) && (0 <? h) && (h <? 65536) then
      Return [xff; xd8; xff; xc0; x00; x0b; x08;
              to_byte (Z.to_N (h / 256)); to_byte (Z.to_N (h mod 256));
              to_byte (Z.to_N (w / 256)); to_byte (Z.to_N (w mod 256));
              (if String.eqb (mode im) "L" then x01 else x03);
              xff; xd9]
    else Raise (Exc ValueError "Maximum supported image dimension is 65500 pixels").

#[export] Instance imaging : Imaging := {|
  Image := image;
  Image_open := open;
  Image_convert := convert;
  Image_rotate := rotate;
  Image_resize := resize;
  Image_save := save;
  Image_size := size;
  Image_format := format
|}.

End HeaderImaging.

(** A 1x1 binary PPM file, [P6\n1 1\n255\n] and one red pixel. *)
Definition ppm_1x1 : bytes :=
  [x50; x36; x0a; x31; x20; x31; x0a; x32; x35; x35; x0a; xff; x00; x00].

Definition request (fields : list (string * json)) : dict :=
  list_to_map fields.

(** The keys of a JSON object, in order. *)
Definition keys (v : json) : list string :=
  match v with
  | JDict d => map fst d
  | _ => []
  end.

(** A field the validator treats as not provided: [data.get(k) is None]. *)
Definition absent_or_null (data : dict) (k : string) : Prop :=
  data !! k = None \/ data !! k = Some JNull.

(** Values that do not compare with an int: str, list and dict. *)
Definition non_numeric (v : json) : bool :=
  match v with
  | JStr _ | JList _ | JDict _ => true
  | _ => false
  end.

(** The TypeError of [v <= 0] for a value that does not compare. *)
Definition type_error (v : json) : exn :=
  Exc TypeError
    ("'<=' not supported between instances of "
     ++ repr_str (type_name v) ++ " and 'int'").

(** The response FastAPI sends for [HTTPException(status_code, detail)]
    whose detail is [{"detail": msg}]. *)
Definition error_response (status_code : Z) (msg : string) : response :=
  {| status := status_code;
     content := JDict [("detail", JDict [("detail", JStr msg)])] |}.

(** What the handler relies on from Pillow when the claims speak about the
    returned image: [resize] yields the requested size, and a stream
    written by [save(format="JPEG")] opens again as a JPEG image of the
    same size. *)
Class ImagingSpec (PIL : Imaging) : Prop := {
  resize_size : forall (im im' : Image) (w h : Z),
    Image_resize im (JInt w, JInt h) = Return im' -> Image_size im' = (w, h);
  save_jpeg_open : forall (im : Image) (data : bytes),
    Image_save im "JPEG" = Return data ->
    exists im', Image_open data = Return im'
                /\ Image_format im' = Some "JPEG"
                /\ Image_size im' = Image_size im
}.

(** *** Notions used in the further properties *)

(** The request fields a transformation reads besides [image] and
    [transformation_type]: what [validate_input] checks for it and
    [process_image] uses. *)
Definition used_parameters (transformation_type : json) : list string :=
  if eq_str transformation_type "resize" then ["width"; "height"]
  else if eq_str transformation_type "rotate" then ["rotation_angle"]
  else [].

(** Characters the non-strict decoder looks at: the alphabet and the pad. *)
Definition significant (c : ascii) : bool :=
  Ascii.eqb c BASE64_PAD
  || match table_a2b_base64 c with Some _ => true | None => false end.

(** A string without the characters the decoder skips. *)
Fixpoint strip (s : string) : string :=
  match s with
  | EmptyString => EmptyString
  | String c rest =>
      if significant c then String c (strip rest) else strip rest
  end.


(** ** The service with its log records

    [validate_input] and [transform_image] once more, this time with the
    records they pass to [logging] (level INFO and above is emitted). A
    message is kept as the pieces of its f-string: the literal text and
    the values that are formatted into it. *)

Module Logged.

Inductive level : Type := INFO | ERROR.

Inductive piece : Type :=
| Text (s : string)
(** [{v}] for a request value or a response dict *)
| Value (v : json)
(** [{str(e)}] *)
| ExnText (e : exn).

Record record : Type := { levelname : level; message : list piece }.

(** The records written so far and the outcome. *)
Definition logged (A : Type) : Type := (list record * result A)%type.

Definition ret {A} (a : A) : logged A := ([], Return a).
Definition raise {A} (e : exn) : logged A := ([], Raise e).
Definition lift {A} (m : result A) : logged A := ([], m).

Definition info (msg : list piece) : logged unit :=
  ([{| levelname := INFO; message := msg |}], Return tt).
Definition error (msg : list piece) : logged unit :=
  ([{| levelname := ERROR; message := msg |}], Return tt).

Definition seq {A B} (m : logged A) (k : A -> logged B) : logged B :=
  match m with
  | (l, Return a) => (l ++ fst (k a), snd (k a))%list
  | (l, Raise e) => (l, Raise e)
  end.

Definition catch {A} (m : logged A) (h : exn -> logged A) : logged A :=
  match m with
  | (l, Return a) => (l, Return a)
  | (l, Raise e) => (l ++ fst (h e), snd (h e))%list
  end.

End Logged.

Notation "'step' x <- m ; k" := (Logged.seq m (fun x => k))
  (at level 10, x name, m at level 100, k at level 200,
   format "'[v' 'step'  x  <-  m ; '/' k ']'").
Notation "'note' m ; k" := (Logged.seq m (fun _ => k))
  (at level 10, m at level 100, k at level 200,
   format "'[v' 'note'  m ; '/' k ']'").

Module MainLogged.
Import Logged.

Definition validate_input_logged (data : dict) : logged dict :=
  match missing_fields data with
  | _ :: _ =>
      let response :=
        JDict [("error",
                JStr ("Missing required fields: "
                      ++ repr_str_list (missing_fields data)));
               ("correct_format", correct_format)] in
      note error [Text "Returning to user: "; Value response];
      raise (HTTPException HTTP_422_UNPROCESSABLE_ENTITY response)
  | [] =>
      step t <- lift (getitem data "transformation_type");
      if eq_str t "resize"
         && (is_None (get data "width" JNull)
             || is_None (get data "height" JNull))
      then
        let response :=
          JDict [("error",
                  JStr "Width and height must be provided for resize transformation.");
                 ("correct_format", correct_format_resize)] in
        note error [Text "Returning to user: "; Value response];
        raise (HTTPException HTTP_422_UNPROCESSABLE_ENTITY response)
      else
        step t <- lift (getitem data "transformation_type");
        if eq_str t "rotate" && is_None (get data "rotation_angle" JNull)
        then
          let response :=
            JDict [("error",
                    JStr "Rotation angle must be provided for rotate transformation.");
                   ("correct_format", correct_format_rotate)] in
          note error [Text "Returning to user: "; Value response];
          raise (HTTPException HTTP_422_UNPROCESSABLE_ENTITY response)
        else ret data
  end.

Section Handler.
Context {PIL : Imaging}.

(** The body of the outer [try] of [transform_image]. *)
Definition transform_image_try_logged (request_data : dict) : logged string :=
  step t <- lift (getitem request_data "transformation_type");
  note info [Text "Transformation requested: "; Value t];
  note info [Text "Decoding base64 image"];
  step b64 <- lift (getitem request_data "image");
  step image_data <- lift (b64decode b64);
  note info [Text "Base64 image decoded successfully"];
  step image <-
    catch
      (note info [Text "Opening image from decoded data"];
       step image <- lift (Image_open image_data);
       note info [Text "Image opened successfully"];
       ret image)
      (fun e =>
         let response := invalid_image_file in
         note error [Text "Invalid image file: "; ExnText e;
                     Text ". Returning to user: "; Value response];
         raise (HTTPException 400 response));
  note info [Text "Processing image transformation"];
  step t <- lift (getitem request_data "transformation_type");
  step transformed_image <-
    lift (process_image image t
            (get request_data "rotation_angle" (JInt 0))
            (get request_data "width" (JInt 0))
            (get request_data "height" (JInt 0)));
  note info [Text "Image transformation completed"];
  step buffered <- lift (Image_save transformed_image "JPEG");
  note info [Text "Transformed image encoded to base64 successfully"];
  note info [Text "Returning transformed image to user"];
  ret (b64encode buffered).

(** The [except] clauses of [transform_image], tried in source order. *)
Definition transform_image_except_logged (e : exn) : logged string :=
  if isinstance e UnidentifiedImageError then
    let response := invalid_image_provided in
    note error [Text "Invalid image provided. Returning to user: ";
                Value response];
    raise (HTTPException 400 response)
  else if isinstance e ValueError then
    let response :=
      JDict [("detail",
              JStr ("Invalid transformation type or parameter: "
                    ++ str_exn e ++ "."))] in
    note error [Text "Invalid transformation type or parameter. Returning to user: ";
                Value response];
    raise (HTTPException 400 response)
  else
    let response :=
      JDict [("detail", JStr ("Internal server error: " ++ str_exn e))] in
    note error [Text "Error during transformation: "; ExnText e;
                Text ". Returning to user: "; Value response];
    raise (HTTPException 500 response).

Definition transform_image_logged (request_data : dict) : logged string :=
  catch (transform_image_try_logged request_data)
    transform_image_except_logged.

(** What serving one POST /transform writes: the records of the
    dependency [validate_input] and then of the handler. *)
Definition post_transform_logged (data : dict) : logged string :=
  step request_data <- validate_input_logged data;
  transform_image_logged request_data.

End Handler.

Definition info_record (msg : list piece) : record :=
  {| levelname := INFO; message := msg |}.

(** The messages of the records of one level, in order. *)
Definition messages (lvl : level) (log : list record) : list (list piece) :=
  map message
    (List.filter
       (fun r => match levelname r, lvl with
                 | INFO, INFO | ERROR, ERROR => true
                 | _, _ => false
                 end) log).

(** The INFO messages of a request that goes through. *)
Definition stage_messages (transformation_type : json) : list (list piece) :=
  [[Text "Transformation requested: "; Value transformation_type];
   [Text "Decoding base64 image"];
   [Text "Base64 image decoded successfully"];
   [Text "Opening image from decoded data"];
   [Text "Image opened successfully"];
   [Text "Processing image transformation"];
   [Text "Image transformation completed"];
   [Text "Transformed image encoded to base64 successfully"];
   [Text "Returning transformed image to user"]].

End MainLogged.

(** * Properties *)

(** ** Sample evaluations *)

Example b64encode_hello :
  b64encode (bytes_of_string "hello") = "aGVsbG8=".
Proof. reflexivity. Qed.

Example b64decode_hello :
  b64decode (JStr "aGVsbG8=") = Return (bytes_of_string "hello").
Proof. reflexivity. Qed.

Example b64decode_abc :
  b64decode (JStr "abc") = Raise (Base64.Error "Incorrect padding").
Proof. reflexivity. Qed.

Example b64decode_a :
  b64decode (JStr "a") =
  Raise (Base64.Error "Invalid base64-encoded string: number of data characters (1) cannot be 1 more than a multiple of 4").
Proof. reflexivity. Qed.

Example b64decode_junk : b64decode (JStr "!!!!") = Return [].
Proof. reflexivity. Qed.

Example b64decode_int :
  b64decode (JInt 5) =
  Raise (Exc TypeError "argument should be a bytes-like object or ASCII string, not 'int'").
Proof. reflexivity. Qed.

Example ppm_1x1_base64 : b64encode ppm_1x1 = "UDYKMSAxCjI1NQr/AAA=".
Proof. reflexivity. Qed.


(** ** base64: decoding undoes encoding *)

Section Base64Facts.
Local Open Scope N_scope.

(** A boolean check that holds on [0 .. k-1] holds below [k]. *)
Lemma forallb_below (P : N -> bool) (k : nat) :
  forallb P (map N.of_nat (seq 0 k)) = true ->
  forall n, n < N.of_nat k -> P n = true.
Proof.
  intros Hall n Hn.
  rewrite forallb_forall in Hall. apply Hall.
  rewrite <- (N2Nat.id n). apply in_map. apply in_seq. lia.
Qed.

Lemma forallb_below2 (P : N -> N -> bool) (k : nat) :
  forallb (fun a => forallb (P a) (map N.of_nat (seq 0 k)))
          (map N.of_nat (seq 0 k)) = true ->
  forall a b, a < N.of_nat k -> b < N.of_nat k -> P a b = true.
Proof.
  intros Hall a b Ha Hb.
  apply (forallb_below (P a) k); [|exact Hb].
  apply (forallb_below _ k Hall a Ha).
Qed.

Lemma table_roundtrip n :
  n < 64 ->
  Ascii.eqb (table_b2a_base64 n) BASE64_PAD = false
  /\ table_a2b_base64 (table_b2a_base64 n) = Some n
  /\ (N_of_ascii (table_b2a_base64 n) <? 128) = true.
Proof.
  intros Hn.
  assert (H : table_ok n = true).
  { apply (forallb_below table_ok 64); [vm_compute; reflexivity | exact Hn]. }
  unfold table_ok in H.
  apply andb_prop in H as [H H3]. apply andb_prop in H as [H1 H2].
  split; [|split]; [| |exact H3].
  - now destruct (Ascii.eqb _ _).
  - destruct (table_a2b_base64 _) as [m|]; [|discriminate].
    apply N.eqb_eq in H2. now subst.
Qed.

(** Checked on all 65536 pairs of byte values. *)
Lemma regroup x y :
  x < 256 -> y < 256 ->
  (sextet0 x < 64 /\ sextet1 x y < 64 /\ sextet2 x y < 64 /\ sextet3 x < 64)
  /\ N.lor (N.shiftl (sextet0 x) 2) (N.shiftr (sextet1 x y) 4) = x
  /\ N.land (sextet1 x y) 15 = N.shiftr y 4
  /\ N.lor (N.shiftl (N.shiftr x 4) 4) (N.shiftr (sextet2 x y) 2) = x
  /\ N.land (sextet2 x y) 3 = N.shiftr y 6
  /\ N.lor (N.shiftl (N.shiftr x 6) 6) (sextet3 x) = x.
Proof.
  intros Hx Hy.
  assert (H : regroup_ok x y = true).
  { revert x y Hx Hy. apply (forallb_below2 regroup_ok 256).
    vm_compute. reflexivity. }
  unfold regroup_ok in H.
  repeat (apply andb_prop in H as [H ?]).
  repeat match goal with
         | E : (_ <? _) = true |- _ => apply N.ltb_lt in E
         | E : (_ =? _) = true |- _ => apply N.eqb_eq in E
         end.
  repeat split; assumption.
Qed.

Lemma to_N_lt (b : byte) : Byte.to_N b < 256.
Proof. pose proof (Byte.to_N_bounded b). lia. Qed.

Lemma to_byte_to_N (b : byte) : to_byte (Byte.to_N b) = b.
Proof.
  unfold to_byte. rewrite N.mod_small by apply to_N_lt.
  now rewrite Byte.of_to_N.
Qed.

(** One unfolding of the decoding loop on an alphabet character. *)
Lemma a2b_loop_alphabet (n : N) (rest : string) (quad_pos leftchar pads n_out : N) :
  n < 64 ->
  a2b_loop (String (table_b2a_base64 n) rest) quad_pos leftchar pads n_out =
  match quad_pos with
  | 0 => a2b_loop rest 1 n 0 n_out
  | 1 =>
      do out <- a2b_loop rest 2 (N.land n 15) 0 (n_out + 1);
      Return (to_byte (N.lor (N.shiftl leftchar 2) (N.shiftr n 4)) :: out)
  | 2 =>
      do out <- a2b_loop rest 3 (N.land n 3) 0 (n_out + 1);
      Return (to_byte (N.lor (N.shiftl leftchar 4) (N.shiftr n 2)) :: out)
  | _ =>
      do out <- a2b_loop rest 0 0 0 (n_out + 1);
      Return (to_byte (N.lor (N.shiftl leftchar 6) n) :: out)
  end.
Proof.
  intros Hn. destruct (table_roundtrip n Hn) as (Hpad & Htab & _).
  cbn [a2b_loop]. rewrite Hpad, Htab. reflexivity.
Qed.

Lemma list_ind3 {A} (P : list A -> Prop) :
  P [] -> (forall a, P [a]) -> (forall a b, P [a; b]) ->
  (forall a b c l, P l -> P (a :: b :: c :: l)) ->
  forall l, P l.
Proof.
  intros H0 H1 H2 H3 l.
  assert (H : P l /\ (forall a, P (a :: l)) /\ (forall a b, P (a :: b :: l))).
  { induction l as [|x l (IH0 & IH1 & IH2)].
    - auto.
    - repeat split; auto. }
  apply H.
Qed.

Lemma sextet1_pad a : N.shiftl (N.land a 3) 4 = sextet1 a 0.
Proof. unfold sextet1. cbn [N.shiftr]. now rewrite N.lor_0_r. Qed.

Lemma sextet2_pad b : N.shiftl (N.land b 15) 2 = sextet2 b 0.
Proof. unfold sextet2. cbn [N.shiftr]. now rewrite N.lor_0_r. Qed.

Lemma a2b_loop_b2a (data : bytes) (n_out : N) :
  a2b_loop (b2a_base64 data) 0 0 0 n_out = Return data.
Proof.
  revert n_out. induction data as [|a|a b|a b c rest IH] using list_ind3;
    intros n_out.
  - reflexivity.
  - cbn [b2a_base64]. rewrite sextet1_pad.
    pose proof (to_N_lt a) as Ha.
    destruct (regroup (Byte.to_N a) 0 Ha eq_refl)
      as ((B0 & B1 & _ & _) & E0 & _).
    fold (sextet0 (Byte.to_N a)).
    rewrite (a2b_loop_alphabet _ _ _ _ _ _ B0).
    rewrite (a2b_loop_alphabet _ _ _ _ _ _ B1).
    cbn. rewrite E0, to_byte_to_N. reflexivity.
  - cbn [b2a_base64]. rewrite sextet2_pad.
    pose proof (to_N_lt a) as Ha. pose proof (to_N_lt b) as Hb.
    destruct (regroup (Byte.to_N a) (Byte.to_N b) Ha Hb)
      as ((B0 & B1 & _ & _) & E0 & E1 & _).
    destruct (regroup (Byte.to_N b) 0 Hb eq_refl)
      as ((_ & _ & B2 & _) & _ & _ & E2 & _).
    fold (sextet0 (Byte.to_N a)). fold (sextet1 (Byte.to_N a) (Byte.to_N b)).
    rewrite (a2b_loop_alphabet _ _ _ _ _ _ B0).
    rewrite (a2b_loop_alphabet _ _ _ _ _ _ B1).
    rewrite (a2b_loop_alphabet _ _ _ _ _ _ B2).
    cbn. rewrite E0, E1, E2, !to_byte_to_N. reflexivity.
  - cbn [b2a_base64].
    pose proof (to_N_lt a) as Ha. pose proof (to_N_lt b) as Hb.
    pose proof (to_N_lt c) as Hc.
    destruct (regroup (Byte.to_N a) (Byte.to_N b) Ha Hb)
      as ((B0 & B1 & _ & _) & E0 & E1 & _).
    destruct (regroup (Byte.to_N b) (Byte.to_N c) Hb Hc)
      as ((_ & _ & B2 & _) & _ & _ & E2 & E3 & _).
    destruct (regroup (Byte.to_N c) 0 Hc eq_refl)
      as ((_ & _ & _ & B3) & _ & _ & _ & _ & E4).
    fold (sextet0 (Byte.to_N a)). fold (sextet1 (Byte.to_N a) (Byte.to_N b)).
    fold (sextet2 (Byte.to_N b) (Byte.to_N c)). fold (sextet3 (Byte.to_N c)).
    rewrite (a2b_loop_alphabet _ _ _ _ _ _ B0).
    rewrite (a2b_loop_alphabet _ _ _ _ _ _ B1).
    rewrite (a2b_loop_alphabet _ _ _ _ _ _ B2).
    rewrite (a2b_loop_alphabet _ _ _ _ _ _ B3).
    rewrite IH. cbn [Py.bind].
    rewrite E0, E1, E2, E3, E4, !to_byte_to_N. reflexivity.
Qed.

Lemma is_ascii_b2a (data : bytes) : is_ascii (b2a_base64 data) = true.
Proof.
  induction data as [|a|a b|a b c rest IH] using list_ind3.
  - reflexivity.
  - cbn [b2a_base64]. rewrite sextet1_pad.
    pose proof (to_N_lt a) as Ha.
    destruct (regroup (Byte.to_N a) 0 Ha eq_refl) as ((B0 & B1 & _ & _) & _).
    fold (sextet0 (Byte.to_N a)). cbn [is_ascii].
    destruct (table_roundtrip _ B0) as (_ & _ & ->).
    destruct (table_roundtrip _ B1) as (_ & _ & ->).
    reflexivity.
  - cbn [b2a_base64]. rewrite sextet2_pad.
    pose proof (to_N_lt a) as Ha. pose proof (to_N_lt b) as Hb.
    destruct (regroup (Byte.to_N a) (Byte.to_N b) Ha Hb)
      as ((B0 & B1 & _ & _) & _).
    destruct (regroup (Byte.to_N b) 0 Hb eq_refl) as ((_ & _ & B2 & _) & _).
    fold (sextet0 (Byte.to_N a)). fold (sextet1 (Byte.to_N a) (Byte.to_N b)).
    cbn [is_ascii].
    destruct (table_roundtrip _ B0) as (_ & _ & ->).
    destruct (table_roundtrip _ B1) as (_ & _ & ->).
    destruct (table_roundtrip _ B2) as (_ & _ & ->).
    reflexivity.
  - cbn [b2a_base64].
    pose proof (to_N_lt a) as Ha. pose proof (to_N_lt b) as Hb.
    pose proof (to_N_lt c) as Hc.
    destruct (regroup (Byte.to_N a) (Byte.to_N b) Ha Hb)
      as ((B0 & B1 & _ & _) & _).
    destruct (regroup (Byte.to_N b) (Byte.to_N c) Hb Hc)
      as ((_ & _ & B2 & _) & _).
    destruct (regroup (Byte.to_N c) 0 Hc eq_refl) as ((_ & _ & _ & B3) & _).
    fold (sextet0 (Byte.to_N a)). fold (sextet1 (Byte.to_N a) (Byte.to_N b)).
    fold (sextet2 (Byte.to_N b) (Byte.to_N c)). fold (sextet3 (Byte.to_N c)).
    cbn [is_ascii].
    destruct (table_roundtrip _ B0) as (_ & _ & ->).
    destruct (table_roundtrip _ B1) as (_ & _ & ->).
    destruct (table_roundtrip _ B2) as (_ & _ & ->).
    destruct (table_roundtrip _ B3) as (_ & _ & ->).
    exact IH.
Qed.

(** [b64decode(b64encode(data)) == data] *)
Lemma b64decode_b64encode (data : bytes) :
  b64decode (JStr (b64encode data)) = Return data.
Proof.
  unfold b64decode, b64encode, a2b_base64.
  rewrite is_ascii_b2a. apply a2b_loop_b2a.
Qed.

(** On a str, [b64decode] raises nothing but ValueError: binascii.Error,
    a subclass, or ValueError itself for non-ASCII input. *)
Lemma a2b_loop_raises (data : string) (quad_pos leftchar pads n_out : N) (e : exn) :
  a2b_loop data quad_pos leftchar pads n_out = Raise e ->
  exists msg, e = Base64.Error msg.
Proof.
  revert quad_pos leftchar pads n_out.
  induction data as [|ch rest IH]; intros quad_pos leftchar pads n_out; cbn [a2b_loop].
  - destruct (quad_pos =? 0); [discriminate|].
    destruct (quad_pos =? 1); intros [= <-]; eauto.
  - destruct (Ascii.eqb ch BASE64_PAD).
    + destruct (2 <=? quad_pos); [|apply IH].
      destruct (4 <=? quad_pos + (pads + 1)); [discriminate|apply IH].
    + destruct (table_a2b_base64 ch) as [this_ch|]; [|apply IH].
      destruct quad_pos as [|[[|[]|]|[|[]|]|]];
        try apply IH;
        match goal with
        | |- context [a2b_loop rest ?q ?l ?p ?n] =>
            specialize (IH q l p n); destruct (a2b_loop rest q l p n);
            cbn [Py.bind]; [discriminate | intros [= <-]; now apply IH]
        end.
Qed.

End Base64Facts.

Lemma b64decode_str_raises (s : string) (e : exn) :
  b64decode (JStr s) = Raise e ->
  exists msg, e = Exc binascii_Error msg \/ e = Exc ValueError msg.
Proof.
  unfold b64decode, a2b_base64. destruct (is_ascii s).
  - intros H. apply a2b_loop_raises in H as [msg ->]. eauto.
  - intros [= <-]. eauto.
Qed.

(** ** The validator *)

Lemma eq_str_true (v : json) (lit : string) :
  eq_str v lit = true <-> v = JStr lit.
Proof.
  destruct v; cbn; try (split; [discriminate | intros [=]]).
  rewrite String.eqb_eq. split; [now intros -> | now intros [= ->]].
Qed.

Lemma eq_str_false (v : json) (lit : string) :
  v <> JStr lit -> eq_str v lit = false.
Proof.
  intros Hne. destruct (eq_str v lit) eqn:E; [|reflexivity].
  apply eq_str_true in E. contradiction.
Qed.

Lemma is_None_get (data : dict) (k : string) :
  is_None (get data k JNull) = true <-> absent_or_null data k.
Proof.
  unfold get, absent_or_null. destruct (data !! k) as [v|].
  - destruct v; cbn;
      try (split; [discriminate | intros [?|?]; discriminate]).
    split; auto.
  - cbn. split; auto.
Qed.

Lemma missing_fields_eq (data : dict) :
  missing_fields data =
  ((if contains data "image" then [] else ["image"])
   ++ (if contains data "transformation_type" then []
       else ["transformation_type"]))%list.
Proof.
  unfold missing_fields, required_fields. cbn [List.filter].
  destruct (contains data "image"), (contains data "transformation_type");
    reflexivity.
Qed.

Lemma missing_fields_nil (data : dict) :
  missing_fields data = [] <->
  is_Some (data !! "image") /\ is_Some (data !! "transformation_type").
Proof.
  rewrite missing_fields_eq. unfold contains.
  destruct (data !! "image"), (data !! "transformation_type"); cbn;
    split; try discriminate; auto;
    intros [[? [=]] [? [=]]] || intros [[? [=]] _] || intros [_ [? [=]]].
Qed.

(** What it takes to pass the validator, and that it hands the request on
    unchanged. *)
Lemma validate_input_Return (data d : dict) :
  validate_input data = Return d <->
  d = data
  /\ exists v t, data !! "image" = Some v
      /\ data !! "transformation_type" = Some t
      /\ (eq_str t "resize"
          && (is_None (get data "width" JNull)
              || is_None (get data "height" JNull)) = false)
      /\ (eq_str t "rotate" && is_None (get data "rotation_angle" JNull)
          = false).
Proof.
  unfold validate_input. rewrite missing_fields_eq. unfold contains, getitem.
  destruct (data !! "image") as [v|];
    [|cbn; split; [discriminate | intros (_ & ? & ? & [=] & _)]].
  destruct (data !! "transformation_type") as [t|];
    [|cbn; split; [discriminate | intros (_ & ? & ? & _ & [=] & _)]].
  cbn [app Py.bind].
  destruct (eq_str t "resize"
            && (is_None (get data "width" JNull)
                || is_None (get data "height" JNull))) eqn:E1.
  { split; [discriminate | intros (_ & ? & ? & _ & [= <-] & E & _)].
    rewrite E1 in E. discriminate. }
  destruct (eq_str t "rotate" && is_None (get data "rotation_angle" JNull))
    eqn:E2.
  { split; [discriminate | intros (_ & ? & ? & _ & [= <-] & _ & E)].
    rewrite E2 in E. discriminate. }
  split.
  - intros [= <-]. split; [reflexivity|]. exists v, t. auto.
  - now intros (-> & _).
Qed.

(** Claim C3. When [image] or [transformation_type] (or both) is absent,
    the validator raises HTTP 422 whose error message is the list of
    exactly the missing ones of the two, with a correct_format example
    over all five fields; POST /transform answers with that, whatever the
    remaining fields and the image are. *)
Theorem validate_input_missing_fields `{PIL : Imaging} (data : dict) :
  data !! "image" = None \/ data !! "transformation_type" = None ->
  validate_input data =
    Raise (HTTPException 422
             (JDict [("error",
                      JStr ("Missing required fields: "
                            ++ repr_str_list (missing_fields data)));
                     ("correct_format", correct_format)]))
  /\ post_transform data =
     {| status := 422;
        content :=
          JDict [("detail",
                  JDict [("error",
                          JStr ("Missing required fields: "
                                ++ repr_str_list (missing_fields data)));
                         ("correct_format", correct_format)])] |}
  /\ (forall field, In field (missing_fields data) <->
                    In field required_fields /\ data !! field = None)
  /\ repr_str_list (missing_fields data) =
     match data !! "image", data !! "transformation_type" with
     | None, None => "['image', 'transformation_type']"
     | None, Some _ => "['image']"
     | Some _, None => "['transformation_type']"
     | Some _, Some _ => "[]"
     end
  /\ keys correct_format =
     ["image"; "transformation_type"; "rotation_angle"; "width"; "height"].
Proof.
  intros Hmiss.
  assert (Hne : missing_fields data <> []).
  { rewrite missing_fields_nil. intros [[? Hi] [? Ht]].
    destruct Hmiss as [H|H]; congruence. }
  assert (Hv : validate_input data =
    Raise (HTTPException 422
             (JDict [("error",
                      JStr ("Missing required fields: "
                            ++ repr_str_list (missing_fields data)));
                     ("correct_format", correct_format)]))).
  { unfold validate_input. destruct (missing_fields data); [congruence|].
    reflexivity. }
  split; [exact Hv|]. split.
  { unfold post_transform. rewrite Hv. reflexivity. }
  split.
  { intros field. unfold missing_fields. rewrite filter_In. unfold contains.
    destruct (data !! field); cbn; intuition congruence. }
  split; [|reflexivity].
  rewrite missing_fields_eq. unfold contains.
  destruct (data !! "image"), (data !! "transformation_type"); reflexivity.
Qed.

Lemma validate_input_missing_fields_witness :
  request [("image", JStr "UDYKMSAxCjI1NQr/AAA="); ("width", JInt 5)]
    !! "transformation_type" = None
  /\ post_transform (PIL := HeaderImaging.imaging)
       (request [("image", JStr "UDYKMSAxCjI1NQr/AAA="); ("width", JInt 5)]) =
     {| status := 422;
        content :=
          JDict [("detail",
                  JDict [("error",
                          JStr "Missing required fields: ['transformation_type']");
                         ("correct_format", correct_format)])] |}.
Proof.
  split; [reflexivity|].
  apply (validate_input_missing_fields (PIL := HeaderImaging.imaging)
           (request [("image", JStr "UDYKMSAxCjI1NQr/AAA="); ("width", JInt 5)])).
  right. reflexivity.
Defined.

(** Claim C4. With [image] and [transformation_type] present: a resize
    request whose width or height is absent or null is rejected with
    HTTP 422 and the resize-specific correct_format (image,
    transformation_type, width, height only); a rotate request whose
    rotation_angle is absent or null is rejected with HTTP 422 and the
    rotate-specific correct_format (image, transformation_type,
    rotation_angle only). *)
Theorem validate_input_conditional_fields `{PIL : Imaging} (data : dict) (v t : json) :
  data !! "image" = Some v ->
  data !! "transformation_type" = Some t ->
  (t = JStr "resize" ->
   absent_or_null data "width" \/ absent_or_null data "height" ->
   post_transform data =
     {| status := 422;
        content :=
          JDict [("detail",
                  JDict [("error",
                          JStr "Width and height must be provided for resize transformation.");
                         ("correct_format", correct_format_resize)])] |}
   /\ keys correct_format_resize =
      ["image"; "transformation_type"; "width"; "height"])
  /\ (t = JStr "rotate" ->
      absent_or_null data "rotation_angle" ->
      post_transform data =
        {| status := 422;
           content :=
             JDict [("detail",
                     JDict [("error",
                             JStr "Rotation angle must be provided for rotate transformation.");
                            ("correct_format", correct_format_rotate)])] |}
      /\ keys correct_format_rotate =
         ["image"; "transformation_type"; "rotation_angle"]).
Proof.
  intros Hi Ht.
  assert (Hm : missing_fields data = []).
  { apply missing_fields_nil. rewrite Hi, Ht. eauto. }
  split.
  - intros -> Hwh. split; [|reflexivity].
    assert (E : is_None (get data "width" JNull)
                || is_None (get data "height" JNull) = true).
    { apply orb_true_iff. rewrite !is_None_get. exact Hwh. }
    unfold post_transform, validate_input, getitem. rewrite Hm, Ht.
    cbn [Py.bind eq_str String.eqb Ascii.eqb Bool.eqb andb]. rewrite E.
    reflexivity.
  - intros -> Ha. split; [|reflexivity].
    apply is_None_get in Ha.
    unfold post_transform, validate_input, getitem. rewrite Hm, Ht.
    cbn [Py.bind eq_str String.eqb Ascii.eqb Bool.eqb andb]. rewrite Ha.
    reflexivity.
Qed.

Lemma validate_input_conditional_fields_witness :
  post_transform (PIL := HeaderImaging.imaging)
    (request [("image", JStr "UDYKMSAxCjI1NQr/AAA=");
              ("transformation_type", JStr "resize");
              ("width", JInt 5); ("height", JNull)]) =
  {| status := 422;
     content :=
       JDict [("detail",
               JDict [("error",
                       JStr "Width and height must be provided for resize transformation.");
                      ("correct_format", correct_format_resize)])] |}
  /\ post_transform (PIL := HeaderImaging.imaging)
       (request [("image", JStr "UDYKMSAxCjI1NQr/AAA=");
                 ("transformation_type", JStr "rotate")]) =
     {| status := 422;
        content :=
          JDict [("detail",
                  JDict [("error",
                          JStr "Rotation angle must be provided for rotate transformation.");
                         ("correct_format", correct_format_rotate)])] |}.
Proof.
  split.
  - apply (validate_input_conditional_fields (PIL := HeaderImaging.imaging)
             (request [("image", JStr "UDYKMSAxCjI1NQr/AAA=");
                       ("transformation_type", JStr "resize");
                       ("width", JInt 5); ("height", JNull)])
             (JStr "UDYKMSAxCjI1NQr/AAA=") (JStr "resize")).
    + reflexivity.
    + reflexivity.
    + reflexivity.
    + right. right. reflexivity.
  - apply (validate_input_conditional_fields (PIL := HeaderImaging.imaging)
             (request [("image", JStr "UDYKMSAxCjI1NQr/AAA=");
                       ("transformation_type", JStr "rotate")])
             (JStr "UDYKMSAxCjI1NQr/AAA=") (JStr "rotate")).
    + reflexivity.
    + reflexivity.
    + reflexivity.
    + left. reflexivity.
Defined.

(** ** The handler *)

Section HandlerFacts.
Context {PIL : Imaging}.

Lemma post_transform_validated (data : dict) :
  validate_input data = Return data ->
  post_transform data =
  match transform_image data with
  | Return transformed_image =>
      {| status := 200;
         content := JDict [("transformed_image", JStr transformed_image)] |}
  | Raise (HTTPException status_code detail) =>
      {| status := status_code; content := JDict [("detail", detail)] |}
  | Raise (Exc _ _) =>
      {| status := 500; content := JStr "Internal Server Error" |}
  end.
Proof. intros H. unfold post_transform. rewrite H. reflexivity. Qed.

(** The stages of the [try] body once both required keys are there. *)
Lemma transform_image_try_stages (data : dict) (v t : json) :
  data !! "image" = Some v ->
  data !! "transformation_type" = Some t ->
  transform_image_try data =
  (do image_data <- b64decode v;
   do image <- try_except (Image_open image_data)
                 (fun _ => Raise (HTTPException 400 invalid_image_file));
   do transformed_image <-
     process_image image t
       (get data "rotation_angle" (JInt 0))
       (get data "width" (JInt 0))
       (get data "height" (JInt 0));
   do buffered <- Image_save transformed_image "JPEG";
   Return (b64encode buffered)).
Proof.
  intros Hi Ht. unfold transform_image_try, getitem. rewrite Hi, Ht.
  reflexivity.
Qed.

(** An exception of the [try] body that is a ValueError and not an
    UnidentifiedImageError is answered with 400. *)
Lemma post_transform_ValueError (data : dict) (e : exn) :
  validate_input data = Return data ->
  transform_image_try data = Raise e ->
  isinstance e UnidentifiedImageError = false ->
  isinstance e ValueError = true ->
  post_transform data =
  error_response 400
    ("Invalid transformation type or parameter: " ++ str_exn e ++ ".").
Proof.
  intros Hv Hr H1 H2. rewrite (post_transform_validated _ Hv).
  unfold transform_image, try_except, transform_image_except.
  rewrite Hr, H1, H2. reflexivity.
Qed.

(** An exception that neither of the first two clauses matches reaches
    [except Exception] and is answered with 500. *)
Lemma post_transform_Exception (data : dict) (e : exn) :
  validate_input data = Return data ->
  transform_image_try data = Raise e ->
  isinstance e UnidentifiedImageError = false ->
  isinstance e ValueError = false ->
  post_transform data =
  error_response 500 ("Internal server error: " ++ str_exn e).
Proof.
  intros Hv Hr H1 H2. rewrite (post_transform_validated _ Hv).
  unfold transform_image, try_except, transform_image_except.
  rewrite Hr, H1, H2. reflexivity.
Qed.

End HandlerFacts.

(** Claim C1, as the code has it. A request that passes validation and
    whose [image] is a string that [base64.b64decode] rejects is answered
    with HTTP 400, not 500: the decode error is a ValueError
    (binascii.Error derives from it), so the [except ValueError] clause
    takes it, and the message is
    ["Invalid transformation type or parameter: <decode error>."]. *)
Theorem malformed_base64_is_400 `{PIL : Imaging} (data : dict) (s : string) (e : exn) :
  validate_input data = Return data ->
  data !! "image" = Some (JStr s) ->
  b64decode (JStr s) = Raise e ->
  post_transform data =
  error_response 400
    ("Invalid transformation type or parameter: " ++ str_exn e ++ ".").
Proof.
  intros Hv Hi Hd.
  pose proof Hv as Hv'. apply validate_input_Return in Hv'
    as (_ & v & t & _ & Ht & _).
  apply (post_transform_ValueError data e Hv).
  - rewrite (transform_image_try_stages data _ t Hi Ht), Hd. reflexivity.
  - apply b64decode_str_raises in Hd as [msg [-> | ->]]; reflexivity.
  - apply b64decode_str_raises in Hd as [msg [-> | ->]]; reflexivity.
Qed.

Lemma malformed_base64_is_400_witness :
  post_transform (PIL := HeaderImaging.imaging)
    (request [("image", JStr "abcde");
              ("transformation_type", JStr "rotate");
              ("rotation_angle", JInt 90)]) =
  error_response 400
    "Invalid transformation type or parameter: Invalid base64-encoded string: number of data characters (5) cannot be 1 more than a multiple of 4.".
Proof.
  apply (malformed_base64_is_400 (PIL := HeaderImaging.imaging)
           (request [("image", JStr "abcde");
                     ("transformation_type", JStr "rotate");
                     ("rotation_angle", JInt 90)])
           "abcde"
           (Base64.Error "Invalid base64-encoded string: number of data characters (5) cannot be 1 more than a multiple of 4")).
  - vm_compute. reflexivity.
  - reflexivity.
  - reflexivity.
Defined.

(** Claim C1 as stated fails: this request passes validation, its image
    ["abc"] is rejected by the base64 decoder (incorrect padding), and the
    answer is HTTP 400 rather than 500. *)
Lemma malformed_base64_not_500 :
  validate_input
    (request [("image", JStr "abc"); ("transformation_type", JStr "grayscale")])
  = Return
      (request [("image", JStr "abc"); ("transformation_type", JStr "grayscale")])
  /\ b64decode (JStr "abc") = Raise (Base64.Error "Incorrect padding")
  /\ post_transform (PIL := HeaderImaging.imaging)
       (request [("image", JStr "abc"); ("transformation_type", JStr "grayscale")])
     = {| status := 400;
          content :=
            JDict [("detail",
                    JDict [("detail",
                            JStr "Invalid transformation type or parameter: Incorrect padding.")])] |}.
Proof. repeat split; vm_compute; reflexivity. Qed.

(** Claim C2, where the code departs from it. When the decoded bytes do
    not open as an image, the handler raises [HTTPException(400, "Invalid
    image file...")] inside the outer [try]; HTTPException is an
    Exception, so the [except Exception] clause catches it and the answer
    is HTTP 500 whose message wraps the intended 400. *)
Theorem unparseable_image_is_500 `{PIL : Imaging} (data : dict) (v : json) (image_data : bytes) (e : exn) :
  validate_input data = Return data ->
  data !! "image" = Some v ->
  b64decode v = Return image_data ->
  Image_open image_data = Raise e ->
  post_transform data =
  error_response 500
    ("Internal server error: "
     ++ str_exn (HTTPException 400 invalid_image_file)).
Proof.
  intros Hv Hi Hd Ho.
  pose proof Hv as Hv'. apply validate_input_Return in Hv'
    as (_ & v' & t & _ & Ht & _).
  apply (post_transform_Exception data _ Hv); [|reflexivity|reflexivity].
  rewrite (transform_image_try_stages data _ t Hi Ht), Hd.
  cbn [Py.bind]. rewrite Ho. reflexivity.
Qed.

Lemma unparseable_image_is_500_witness :
  b64decode (JStr "aGVsbG8=") = Return (bytes_of_string "hello")
  /\ post_transform (PIL := HeaderImaging.imaging)
       (request [("image", JStr "aGVsbG8=");
                 ("transformation_type", JStr "grayscale")]) =
     {| status := 500;
        content :=
          JDict [("detail",
                  JDict [("detail",
                          JStr "Internal server error: 400: {'detail': 'Invalid image file. Ensure the image is a valid Base64 encoded string representing an image.'}")])] |}.
Proof.
  split; [reflexivity|].
  apply (unparseable_image_is_500 (PIL := HeaderImaging.imaging)
           (request [("image", JStr "aGVsbG8=");
                     ("transformation_type", JStr "grayscale")])
           (JStr "aGVsbG8=") (bytes_of_string "hello")
           HeaderImaging.unidentified).
  - vm_compute. reflexivity.
  - reflexivity.
  - reflexivity.
  - reflexivity.
Defined.

Section Dispatch.
Context {PIL : Imaging}.

Lemma process_image_other (image : Image) (t a w h : json) :
  t <> JStr "grayscale" -> t <> JStr "rotate" -> t <> JStr "resize" ->
  process_image image t a w h =
  Raise (Exc ValueError "Invalid transformation type").
Proof.
  intros H1 H2 H3. unfold process_image.
  now rewrite !eq_str_false by assumption.
Qed.

Lemma process_image_resize (image : Image) (a w h : json) :
  process_image image (JStr "resize") a w h =
  (do w_le <- le_zero w;
   do bad <- (if w_le : bool then Return true else le_zero h);
   if bad : bool then
     Raise (Exc ValueError
              "Width and height must be positive integers for resizing.")
   else Image_resize image (w, h)).
Proof. reflexivity. Qed.

Lemma process_image_rotate (image : Image) (a w h : json) :
  process_image image (JStr "rotate") a w h = Image_rotate image a true.
Proof. reflexivity. Qed.

Lemma process_image_grayscale (image : Image) (a w h : json) :
  process_image image (JStr "grayscale") a w h = Image_convert image "L".
Proof. reflexivity. Qed.

(** The [try] body from the dispatch on, for a request whose image decodes
    and opens. *)
Lemma transform_image_try_opened (data : dict) (v t : json)
    (image_data : bytes) (image : Image) :
  data !! "image" = Some v ->
  data !! "transformation_type" = Some t ->
  b64decode v = Return image_data ->
  Image_open image_data = Return image ->
  transform_image_try data =
  (do transformed_image <-
     process_image image t
       (get data "rotation_angle" (JInt 0))
       (get data "width" (JInt 0))
       (get data "height" (JInt 0));
   do buffered <- Image_save transformed_image "JPEG";
   Return (b64encode buffered)).
Proof.
  intros Hi Ht Hd Ho.
  rewrite (transform_image_try_stages data v t Hi Ht), Hd.
  cbn [Py.bind]. rewrite Ho. reflexivity.
Qed.

End Dispatch.

(** Claim C5, with the precondition it leaves out. A request with both
    required keys and a [transformation_type] other than grayscale, rotate
    and resize passes validation (no 422); if moreover its image decodes
    and opens, the dispatch raises ValueError and the answer is HTTP 400
    ["Invalid transformation type or parameter: Invalid transformation
    type."]. *)
Theorem unknown_transformation_type_is_400 `{PIL : Imaging} (data : dict) (v t : json) :
  data !! "image" = Some v ->
  data !! "transformation_type" = Some t ->
  t <> JStr "grayscale" -> t <> JStr "rotate" -> t <> JStr "resize" ->
  validate_input data = Return data
  /\ forall (image_data : bytes) (image : Image),
       b64decode v = Return image_data ->
       Image_open image_data = Return image ->
       post_transform data =
       error_response 400
         "Invalid transformation type or parameter: Invalid transformation type.".
Proof.
  intros Hi Ht H1 H2 H3.
  assert (Hv : validate_input data = Return data).
  { apply validate_input_Return. split; [reflexivity|].
    exists v, t. repeat split; try assumption.
    - now rewrite (eq_str_false t "resize").
    - now rewrite (eq_str_false t "rotate"). }
  split; [exact Hv|].
  intros image_data image Hd Ho.
  apply (post_transform_ValueError data
           (Exc ValueError "Invalid transformation type") Hv);
    [|reflexivity|reflexivity].
  rewrite (transform_image_try_opened data v t _ _ Hi Ht Hd Ho).
  now rewrite process_image_other.
Qed.

Lemma unknown_transformation_type_is_400_witness :
  post_transform (PIL := HeaderImaging.imaging)
    (request [("image", JStr "UDYKMSAxCjI1NQr/AAA=");
              ("transformation_type", JStr "blur")]) =
  error_response 400
    "Invalid transformation type or parameter: Invalid transformation type.".
Proof.
  refine (proj2 (unknown_transformation_type_is_400 (PIL := HeaderImaging.imaging)
           (request [("image", JStr "UDYKMSAxCjI1NQr/AAA=");
                     ("transformation_type", JStr "blur")])
           (JStr "UDYKMSAxCjI1NQr/AAA=") (JStr "blur") _ _ _ _ _)
           ppm_1x1
           {| HeaderImaging.format := Some "PPM"; HeaderImaging.mode := "RGB";
              HeaderImaging.size := (1, 1) |} _ _);
    try reflexivity; discriminate.
Defined.

(** Claim C5 as stated fails without that precondition. Both requests
    have the two required keys and an unknown transformation type. The
    image ["abc"] of the first does not decode: 400, but with the
    decoder's message. The image of the second is a number: the decoder's
    TypeError reaches the generic clause, 500. *)
Lemma unknown_transformation_type_bad_image :
  post_transform (PIL := HeaderImaging.imaging)
    (request [("image", JStr "abc"); ("transformation_type", JStr "blur")])
  = {| status := 400;
       content :=
         JDict [("detail",
                 JDict [("detail",
                         JStr "Invalid transformation type or parameter: Incorrect padding.")])] |}
  /\ post_transform (PIL := HeaderImaging.imaging)
       (request [("image", JInt 5); ("transformation_type", JStr "blur")])
     = {| status := 500;
          content :=
            JDict [("detail",
                    JDict [("detail",
                            JStr "Internal server error: argument should be a bytes-like object or ASCII string, not 'int'")])] |}.
Proof. split; vm_compute; reflexivity. Qed.

(** Claim C6, as far as it holds. A resize request whose image decodes
    and opens and for which the check [width <= 0 or height <= 0] of
    [process_image] comes out true passes validation and is answered with
    HTTP 400 and a message that begins
    ["Invalid transformation type or parameter:"]. The check comes out
    true when width is a number (int, bool or float) that is zero or
    negative, whatever the non-null height is, or when width is a number
    above zero and height a number that is zero or negative. [le_zero] is
    the comparison [<= 0] on request values. *)
Theorem nonpositive_resize_is_400 `{PIL : Imaging} (data : dict) (v w h : json)
    (image_data : bytes) (image : Image) :
  data !! "image" = Some v ->
  b64decode v = Return image_data ->
  Image_open image_data = Return image ->
  data !! "transformation_type" = Some (JStr "resize") ->
  data !! "width" = Some w ->
  data !! "height" = Some h ->
  (le_zero w = Return true /\ h <> JNull)
  \/ (le_zero w = Return false /\ le_zero h = Return true) ->
  validate_input data = Return data
  /\ post_transform data =
     error_response 400
       "Invalid transformation type or parameter: Width and height must be positive integers for resizing.."
  /\ String.prefix "Invalid transformation type or parameter:"
       "Invalid transformation type or parameter: Width and height must be positive integers for resizing.."
     = true.
Proof.
  intros Hi Hd Ho Ht Hw Hh Hcheck.
  assert (Hv : validate_input data = Return data).
  { apply validate_input_Return. split; [reflexivity|].
    exists v, (JStr "resize"). unfold get. rewrite Hw, Hh.
    repeat split; try assumption; try reflexivity.
    cbn [eq_str String.eqb Ascii.eqb Bool.eqb andb].
    apply orb_false_intro.
    - destruct Hcheck as [[Hle _] | [Hle _]]; destruct w;
        try reflexivity; discriminate.
    - destruct Hcheck as [[_ Hn] | [_ Hle]]; destruct h;
        try reflexivity; congruence || discriminate. }
  split; [exact Hv|]. split; [|reflexivity].
  apply (post_transform_ValueError data
           (Exc ValueError
              "Width and height must be positive integers for resizing.") Hv);
    [|reflexivity|reflexivity].
  rewrite (transform_image_try_opened data v _ _ _ Hi Ht Hd Ho).
  rewrite process_image_resize. unfold get. rewrite Hw, Hh.
  destruct Hcheck as [[Hle _] | [Hlw Hlh]].
  - rewrite Hle. reflexivity.
  - rewrite Hlw. cbn [Py.bind]. rewrite Hlh. reflexivity.
Qed.

Lemma nonpositive_resize_is_400_witness :
  post_transform (PIL := HeaderImaging.imaging)
    (request [("image", JStr "UDYKMSAxCjI1NQr/AAA=");
              ("transformation_type", JStr "resize");
              ("width", JInt 0); ("height", JInt 5)]) =
  error_response 400
    "Invalid transformation type or parameter: Width and height must be positive integers for resizing.."
  /\ post_transform (PIL := HeaderImaging.imaging)
       (request [("image", JStr "UDYKMSAxCjI1NQr/AAA=");
                 ("transformation_type", JStr "resize");
                 ("width", JInt 5); ("height", JFloat (-0.5)%float)]) =
     error_response 400
       "Invalid transformation type or parameter: Width and height must be positive integers for resizing..".
Proof.
  pose (image := {| HeaderImaging.format := Some "PPM";
                    HeaderImaging.mode := "RGB";
                    HeaderImaging.size := (1, 1) |}).
  split.
  - refine (proj1 (proj2 (nonpositive_resize_is_400
             (PIL := HeaderImaging.imaging)
             (request [("image", JStr "UDYKMSAxCjI1NQr/AAA=");
                       ("transformation_type", JStr "resize");
                       ("width", JInt 0); ("height", JInt 5)])
             (JStr "UDYKMSAxCjI1NQr/AAA=") (JInt 0) (JInt 5) ppm_1x1 image
             _ _ _ _ _ _ _)));
      try reflexivity.
    left. split; [reflexivity|discriminate].
  - refine (proj1 (proj2 (nonpositive_resize_is_400
             (PIL := HeaderImaging.imaging)
             (request [("image", JStr "UDYKMSAxCjI1NQr/AAA=");
                       ("transformation_type", JStr "resize");
                       ("width", JInt 5); ("height", JFloat (-0.5)%float)])
             (JStr "UDYKMSAxCjI1NQr/AAA=") (JInt 5) (JFloat (-0.5)%float)
             ppm_1x1 image _ _ _ _ _ _ _)));
      try reflexivity.
    right. split; reflexivity.
Defined.

(** Claim C6 as stated fails: this resize request passes validation, its
    image is a valid 1x1 PPM file and its height is 0, but its width is the
    string ["5"]; [width <= 0] is evaluated first and raises TypeError, so
    the answer is HTTP 500, not 400. *)
Lemma string_width_zero_height_is_500 :
  validate_input
    (request [("image", JStr "UDYKMSAxCjI1NQr/AAA=");
              ("transformation_type", JStr "resize");
              ("width", JStr "5"); ("height", JInt 0)])
  = Return
      (request [("image", JStr "UDYKMSAxCjI1NQr/AAA=");
                ("transformation_type", JStr "resize");
                ("width", JStr "5"); ("height", JInt 0)])
  /\ post_transform (PIL := HeaderImaging.imaging)
       (request [("image", JStr "UDYKMSAxCjI1NQr/AAA=");
                 ("transformation_type", JStr "resize");
                 ("width", JStr "5"); ("height", JInt 0)])
     = {| status := 500;
          content :=
            JDict [("detail",
                    JDict [("detail",
                            JStr "Internal server error: '<=' not supported between instances of 'str' and 'int'")])] |}.
Proof. split; vm_compute; reflexivity. Qed.

(** ** Successful requests *)

Section Success.
Context {PIL : Imaging}.

Lemma validate_input_Raise (data : dict) (e : exn) :
  validate_input data = Raise e -> exists detail, e = HTTPException 422 detail.
Proof.
  unfold validate_input, getitem.
  destruct (missing_fields data) eqn:Hm; [|intros [= <-]; eauto].
  apply missing_fields_nil in Hm as [_ [t ->]]. cbn [Py.bind].
  destruct (_ && _); [intros [= <-]; eauto|].
  destruct (_ && _); [intros [= <-]; eauto|discriminate].
Qed.

Lemma transform_image_Raise (data : dict) (e : exn) :
  transform_image data = Raise e ->
  exists detail, e = HTTPException 400 detail \/ e = HTTPException 500 detail.
Proof.
  unfold transform_image, try_except, transform_image_except.
  destruct (transform_image_try data) as [s|e']; [discriminate|].
  destruct (isinstance e' UnidentifiedImageError); [intros [= <-]; eauto|].
  destruct (isinstance e' ValueError); intros [= <-]; eauto.
Qed.

(** A 200 answer means that every stage returned; the body carries the
    base64 text of what [save(format="JPEG")] wrote. *)
Lemma post_transform_200 (data : dict) :
  status (post_transform data) = 200 ->
  exists (v t : json) (image_data : bytes) (image transformed_image : Image)
         (buffered : bytes),
    validate_input data = Return data
    /\ data !! "image" = Some v
    /\ data !! "transformation_type" = Some t
    /\ b64decode v = Return image_data
    /\ Image_open image_data = Return image
    /\ process_image image t
         (get data "rotation_angle" (JInt 0))
         (get data "width" (JInt 0))
         (get data "height" (JInt 0)) = Return transformed_image
    /\ Image_save transformed_image "JPEG" = Return buffered
    /\ post_transform data =
       {| status := 200;
          content :=
            JDict [("transformed_image", JStr (b64encode buffered))] |}.
Proof.
  intros H200.
  destruct (validate_input data) as [d|e] eqn:Hv.
  2:{ unfold post_transform in H200. rewrite Hv in H200.
      apply validate_input_Raise in Hv as [detail ->]. discriminate. }
  pose proof Hv as Hv'.
  apply validate_input_Return in Hv' as (-> & v & t & Hi & Ht & _).
  rewrite (post_transform_validated _ Hv) in H200 |- *.
  destruct (transform_image data) as [s|e] eqn:Htr.
  2:{ apply transform_image_Raise in Htr as [detail [-> | ->]]; discriminate. }
  unfold transform_image, try_except in Htr.
  destruct (transform_image_try data) as [s'|e] eqn:Htry.
  2:{ exfalso. unfold transform_image_except in Htr.
      destruct (isinstance e UnidentifiedImageError); [discriminate|].
      destruct (isinstance e ValueError); discriminate. }
  injection Htr as ->.
  rewrite (transform_image_try_stages data v t Hi Ht) in Htry.
  destruct (b64decode v) as [image_data|] eqn:Hd; [|discriminate].
  cbn [Py.bind] in Htry.
  destruct (Image_open image_data) as [image|] eqn:Ho; [|discriminate].
  cbn [Py.bind try_except] in Htry.
  destruct (process_image image t _ _ _) as [transformed|] eqn:Hp;
    [|discriminate].
  cbn [Py.bind] in Htry.
  destruct (Image_save transformed "JPEG") as [buffered|] eqn:Hs;
    [|discriminate].
  injection Htry as <-.
  exists v, t, image_data, image, transformed, buffered.
  repeat split; assumption || reflexivity.
Qed.

End Success.

(** ** The executable imaging library meets [ImagingSpec] *)

Lemma to_N_to_byte (n : N) : Byte.to_N (to_byte n) = (n mod 256)%N.
Proof.
  unfold to_byte.
  pose proof (Byte.to_of_N_option_map (n mod 256)) as H.
  assert (Hlt : (n mod 256 < 256)%N) by (apply N.mod_lt; discriminate).
  destruct (N.leb_spec (n mod 256) 255); [|lia].
  destruct (Byte.of_N (n mod 256)); [now injection H|discriminate].
Qed.

Lemma be16_to_byte (x : Z) :
  0 <= x < 65536 ->
  HeaderImaging.be16 (to_byte (Z.to_N (x / 256))) (to_byte (Z.to_N (x mod 256)))
  = x.
Proof.
  intros Hx. unfold HeaderImaging.be16. rewrite !to_N_to_byte.
  assert (0 <= x / 256 < 256) by (split; [apply Z.div_pos|apply Z.div_lt_upper_bound]; lia).
  assert (0 <= x mod 256 < 256) by (apply Z.mod_pos_bound; lia).
  rewrite !N.mod_small by lia.
  rewrite !Z2N.id by lia.
  pose proof (Z.div_mod x 256). lia.
Qed.

#[export] Instance HeaderImaging_spec : ImagingSpec HeaderImaging.imaging.
Proof.
  split.
  - intros im im' w h. cbn. unfold HeaderImaging.resize.
    destruct ((0 <? w) && (0 <? h)); [|discriminate].
    now intros [= <-].
  - intros im data. cbn. unfold HeaderImaging.save.
    cbn [String.eqb Ascii.eqb Bool.eqb negb].
    destruct (negb _); [discriminate|].
    destruct (HeaderImaging.size im) as [w h] eqn:Hsz.
    destruct ((0 <? w) && (w <? 65536) && (0 <? h) && (h <? 65536)) eqn:Hb;
      [|discriminate].
    intros [= <-].
    repeat (apply andb_prop in Hb as [Hb ?]).
    repeat match goal with
           | E : (_ <? _) = true |- _ => apply Z.ltb_lt in E
           end.
    eexists. split; [reflexivity|]. split; [reflexivity|].
    cbn [HeaderImaging.size]. rewrite !be16_to_byte by lia. reflexivity.
Qed.

(** Claim C7. When a resize request with strictly positive integer width
    and height succeeds, [transformed_image] base64-decodes to bytes that
    open as an image of exactly width x height, whatever the size of the
    input image. The imaging library is taken to meet [ImagingSpec]. *)
Theorem resize_output_size `{PIL : Imaging} `{!ImagingSpec PIL} (data : dict) (w h : Z) :
  data !! "transformation_type" = Some (JStr "resize") ->
  data !! "width" = Some (JInt w) ->
  data !! "height" = Some (JInt h) ->
  0 < w -> 0 < h ->
  status (post_transform data) = 200 ->
  exists (t : string) (decoded : bytes) (image : Image),
    content (post_transform data) = JDict [("transformed_image", JStr t)]
    /\ b64decode (JStr t) = Return decoded
    /\ Image_open decoded = Return image
    /\ Image_size image = (w, h).
Proof.
  intros Ht Hw Hh Hw0 Hh0 H200.
  apply post_transform_200 in H200
    as (v & t & image_data & image & transformed & buffered
        & _ & _ & Ht' & _ & _ & Hp & Hs & ->).
  rewrite Ht in Ht'. injection Ht' as <-.
  rewrite process_image_resize in Hp. unfold get in Hp. rewrite Hw, Hh in Hp.
  cbn [le_zero Py.bind] in Hp.
  destruct (Z.leb_spec w 0); [lia|]. cbn [Py.bind] in Hp.
  destruct (Z.leb_spec h 0); [lia|]. cbn [Py.bind] in Hp.
  apply resize_size in Hp.
  apply save_jpeg_open in Hs as (image' & Ho' & _ & Hsz).
  exists (b64encode buffered), buffered, image'.
  split; [reflexivity|]. split; [apply b64decode_b64encode|].
  split; [exact Ho'|]. congruence.
Qed.

Lemma resize_output_size_witness :
  exists (t : string) (decoded : bytes) (image : HeaderImaging.image),
    content (post_transform (PIL := HeaderImaging.imaging)
               (request [("image", JStr "UDYKMSAxCjI1NQr/AAA=");
                         ("transformation_type", JStr "resize");
                         ("width", JInt 5); ("height", JInt 20)]))
    = JDict [("transformed_image", JStr t)]
    /\ b64decode (JStr t) = Return decoded
    /\ HeaderImaging.open decoded = Return image
    /\ HeaderImaging.size image = (5, 20).
Proof.
  apply (resize_output_size (PIL := HeaderImaging.imaging)
           (request [("image", JStr "UDYKMSAxCjI1NQr/AAA=");
                     ("transformation_type", JStr "resize");
                     ("width", JInt 5); ("height", JInt 20)]) 5 20).
  - reflexivity.
  - reflexivity.
  - reflexivity.
  - lia.
  - lia.
  - vm_compute. reflexivity.
Defined.

(** Claim C9. Whenever POST /transform answers 200, whatever the format of
    the input image, [transformed_image] is the base64 text of the bytes
    that [save(format="JPEG")] wrote for the transformed image: it decodes
    back to those bytes, and they open as a JPEG image. The imaging
    library is taken to meet [ImagingSpec]. *)
Theorem success_output_is_jpeg `{PIL : Imaging} `{!ImagingSpec PIL} (data : dict) :
  status (post_transform data) = 200 ->
  exists (t : string) (jpeg : bytes) (transformed_image reopened : Image),
    content (post_transform data) = JDict [("transformed_image", JStr t)]
    /\ Image_save transformed_image "JPEG" = Return jpeg
    /\ t = b64encode jpeg
    /\ b64decode (JStr t) = Return jpeg
    /\ Image_open jpeg = Return reopened
    /\ Image_format reopened = Some "JPEG".
Proof.
  intros H200.
  apply post_transform_200 in H200
    as (v & t & image_data & image & transformed & buffered
        & _ & _ & _ & _ & _ & _ & Hs & ->).
  destruct (save_jpeg_open _ _ Hs) as (reopened & Ho & Hf & _).
  exists (b64encode buffered), buffered, transformed, reopened.
  repeat split; try assumption; try reflexivity.
  apply b64decode_b64encode.
Qed.

Lemma success_output_is_jpeg_witness :
  exists (t : string) (jpeg : bytes)
         (transformed_image reopened : HeaderImaging.image),
    content (post_transform (PIL := HeaderImaging.imaging)
               (request [("image", JStr "UDYKMSAxCjI1NQr/AAA=");
                         ("transformation_type", JStr "grayscale")]))
    = JDict [("transformed_image", JStr t)]
    /\ HeaderImaging.save transformed_image "JPEG" = Return jpeg
    /\ t = b64encode jpeg
    /\ b64decode (JStr t) = Return jpeg
    /\ HeaderImaging.open jpeg = Return reopened
    /\ HeaderImaging.format reopened = Some "JPEG".
Proof.
  apply (success_output_is_jpeg (PIL := HeaderImaging.imaging)
           (request [("image", JStr "UDYKMSAxCjI1NQr/AAA=");
                     ("transformation_type", JStr "grayscale")])).
  vm_compute. reflexivity.
Defined.

(** ** Parameters of the wrong type *)

Lemma le_zero_non_numeric (v : json) :
  non_numeric v = true -> le_zero v = Raise (type_error v).
Proof. destruct v; try discriminate; reflexivity. Qed.

Lemma non_numeric_not_None (v : json) :
  non_numeric v = true -> is_None v = false.
Proof. destruct v; try discriminate; reflexivity. Qed.

(** Claim C10, as far as it holds. The validator looks at presence and
    null only. For a request whose image decodes and opens:
    a resize whose width is a string, array or object (height given), or
    whose width is a positive integer and whose height is a string, array
    or object, passes validation, and the TypeError of the comparison with
    0 reaches [except Exception]: HTTP 500
    ["Internal server error: <detail>"]; a rotate whose non-null
    rotation_angle makes the library raise TypeError passes validation and
    is answered with HTTP 500 likewise. *)
Theorem wrong_type_parameter_is_500 `{PIL : Imaging} (data : dict) (v : json)
    (image_data : bytes) (image : Image) :
  data !! "image" = Some v ->
  b64decode v = Return image_data ->
  Image_open image_data = Return image ->
  (forall w h : json,
     data !! "transformation_type" = Some (JStr "resize") ->
     data !! "width" = Some w ->
     data !! "height" = Some h ->
     (non_numeric w = true /\ h <> JNull ->
      validate_input data = Return data
      /\ post_transform data =
         error_response 500
           ("Internal server error: '<=' not supported between instances of "
            ++ repr_str (type_name w) ++ " and 'int'"))
     /\ ((exists z, w = JInt z /\ 0 < z) /\ non_numeric h = true ->
         validate_input data = Return data
         /\ post_transform data =
            error_response 500
              ("Internal server error: '<=' not supported between instances of "
               ++ repr_str (type_name h) ++ " and 'int'")))
  /\ (forall (a : json) (msg : string),
        data !! "transformation_type" = Some (JStr "rotate") ->
        data !! "rotation_angle" = Some a ->
        a <> JNull ->
        Image_rotate image a true = Raise (Exc TypeError msg) ->
        validate_input data = Return data
        /\ post_transform data =
           error_response 500 ("Internal server error: " ++ msg)).
Proof.
  intros Hi Hd Ho. split.
  - intros w h Ht Hw Hh. split.
    + intros [Hnw Hnh].
      assert (Hv : validate_input data = Return data).
      { apply validate_input_Return. split; [reflexivity|].
        exists v, (JStr "resize"). unfold get. rewrite Hw, Hh.
        rewrite (non_numeric_not_None w Hnw).
        repeat split; try assumption; try reflexivity.
        destruct h; try reflexivity. congruence. }
      split; [exact Hv|].
      assert (Htry : transform_image_try data = Raise (type_error w)).
      { rewrite (transform_image_try_opened data v _ _ _ Hi Ht Hd Ho).
        rewrite process_image_resize. unfold get. rewrite Hw, Hh.
        rewrite (le_zero_non_numeric w Hnw). reflexivity. }
      rewrite (post_transform_Exception data _ Hv Htry eq_refl eq_refl).
      reflexivity.
    + intros [(z & -> & Hz) Hnh].
      assert (Hv : validate_input data = Return data).
      { apply validate_input_Return. split; [reflexivity|].
        exists v, (JStr "resize"). unfold get. rewrite Hw, Hh.
        rewrite (non_numeric_not_None h Hnh).
        repeat split; assumption || reflexivity. }
      split; [exact Hv|].
      assert (Htry : transform_image_try data = Raise (type_error h)).
      { rewrite (transform_image_try_opened data v _ _ _ Hi Ht Hd Ho).
        rewrite process_image_resize. unfold get. rewrite Hw, Hh.
        cbn [le_zero Py.bind]. destruct (Z.leb_spec z 0); [lia|].
        cbn [Py.bind]. rewrite (le_zero_non_numeric h Hnh). reflexivity. }
      rewrite (post_transform_Exception data _ Hv Htry eq_refl eq_refl).
      reflexivity.
  - intros a msg Ht Ha Hna Hrot.
    assert (Hv : validate_input data = Return data).
    { apply validate_input_Return. split; [reflexivity|].
      exists v, (JStr "rotate"). unfold get. rewrite Ha.
      repeat split; try assumption; try reflexivity.
      destruct a; try reflexivity. congruence. }
    split; [exact Hv|].
    apply (post_transform_Exception data (Exc TypeError msg) Hv);
      [|reflexivity|reflexivity].
    rewrite (transform_image_try_opened data v _ _ _ Hi Ht Hd Ho).
    rewrite process_image_rotate. unfold get. rewrite Ha, Hrot. reflexivity.
Qed.

Lemma wrong_type_parameter_is_500_witness :
  post_transform (PIL := HeaderImaging.imaging)
    (request [("image", JStr "UDYKMSAxCjI1NQr/AAA=");
              ("transformation_type", JStr "resize");
              ("width", JStr "5"); ("height", JInt 20)]) =
  error_response 500
    "Internal server error: '<=' not supported between instances of 'str' and 'int'"
  /\ post_transform (PIL := HeaderImaging.imaging)
       (request [("image", JStr "UDYKMSAxCjI1NQr/AAA=");
                 ("transformation_type", JStr "resize");
                 ("width", JInt 5); ("height", JList [])]) =
     error_response 500
       "Internal server error: '<=' not supported between instances of 'list' and 'int'"
  /\ post_transform (PIL := HeaderImaging.imaging)
       (request [("image", JStr "UDYKMSAxCjI1NQr/AAA=");
                 ("transformation_type", JStr "rotate");
                 ("rotation_angle", JStr "45")]) =
     error_response 500
       "Internal server error: unsupported operand type(s) for %: 'str' and 'float'".
Proof.
  pose (image := {| HeaderImaging.format := Some "PPM";
                    HeaderImaging.mode := "RGB";
                    HeaderImaging.size := (1, 1) |}).
  split; [|split].
  - refine (proj2 (proj1 (proj1 (wrong_type_parameter_is_500
             (PIL := HeaderImaging.imaging)
             (request [("image", JStr "UDYKMSAxCjI1NQr/AAA=");
                       ("transformation_type", JStr "resize");
                       ("width", JStr "5"); ("height", JInt 20)])
             (JStr "UDYKMSAxCjI1NQr/AAA=") ppm_1x1 image _ _ _)
             (JStr "5") (JInt 20) _ _ _) _));
      try reflexivity.
    split; [reflexivity|discriminate].
  - refine (proj2 (proj2 (proj1 (wrong_type_parameter_is_500
             (PIL := HeaderImaging.imaging)
             (request [("image", JStr "UDYKMSAxCjI1NQr/AAA=");
                       ("transformation_type", JStr "resize");
                       ("width", JInt 5); ("height", JList [])])
             (JStr "UDYKMSAxCjI1NQr/AAA=") ppm_1x1 image _ _ _)
             (JInt 5) (JList []) _ _ _) _));
      try reflexivity.
    split; [|reflexivity]. exists 5. split; [reflexivity|lia].
  - refine (proj2 (proj2 (wrong_type_parameter_is_500
             (PIL := HeaderImaging.imaging)
             (request [("image", JStr "UDYKMSAxCjI1NQr/AAA=");
                       ("transformation_type", JStr "rotate");
                       ("rotation_angle", JStr "45")])
             (JStr "UDYKMSAxCjI1NQr/AAA=") ppm_1x1 image _ _ _)
             (JStr "45")
             "unsupported operand type(s) for %: 'str' and 'float'" _ _ _ _));
      try reflexivity.
    discriminate.
Defined.

(** Claim C10 as stated fails: in this resize request the image is a
    valid 1x1 PPM file and height is a string, not an integer; width is 0,
    so [width <= 0] already holds, height is never compared, the handler
    raises ValueError and the answer is HTTP 400, not 500. *)
Lemma wrong_type_height_is_400 :
  validate_input
    (request [("image", JStr "UDYKMSAxCjI1NQr/AAA=");
              ("transformation_type", JStr "resize");
              ("width", JInt 0); ("height", JStr "5")])
  = Return
      (request [("image", JStr "UDYKMSAxCjI1NQr/AAA=");
                ("transformation_type", JStr "resize");
                ("width", JInt 0); ("height", JStr "5")])
  /\ post_transform (PIL := HeaderImaging.imaging)
       (request [("image", JStr "UDYKMSAxCjI1NQr/AAA=");
                 ("transformation_type", JStr "resize");
                 ("width", JInt 0); ("height", JStr "5")])
     = {| status := 400;
          content :=
            JDict [("detail",
                    JDict [("detail",
                            JStr "Invalid transformation type or parameter: Width and height must be positive integers for resizing..")])] |}.
Proof. split; vm_compute; reflexivity. Qed.

(** * Further properties of the service *)

(** ** The validator as a whole *)

(** The validator accepts a request exactly when both required keys are
    there, a resize has non-null width and height and a rotate has a
    non-null rotation_angle; it then returns the request unchanged. *)
Theorem validate_input_accepts_iff (data d : dict) :
  validate_input data = Return d <->
  d = data
  /\ is_Some (data !! "image")
  /\ is_Some (data !! "transformation_type")
  /\ (data !! "transformation_type" = Some (JStr "resize") ->
      ~ absent_or_null data "width" /\ ~ absent_or_null data "height")
  /\ (data !! "transformation_type" = Some (JStr "rotate") ->
      ~ absent_or_null data "rotation_angle").
Proof.
  rewrite validate_input_Return. split.
  - intros (-> & v & t & Hi & Ht & Hrs & Hro).
    split; [reflexivity|]. rewrite Hi, Ht.
    split; [eauto|]. split; [eauto|]. split.
    + intros [= ->]. cbn in Hrs. apply orb_false_elim in Hrs as [Hw Hh].
      split; intros Hn; apply is_None_get in Hn; congruence.
    + intros [= ->]. cbn in Hro.
      intros Hn; apply is_None_get in Hn; congruence.
  - intros (-> & [v Hi] & [t Ht] & Hrs & Hro).
    split; [reflexivity|]. exists v, t. repeat split; try assumption.
    + destruct (eq_str t "resize") eqn:E; [|reflexivity].
      apply eq_str_true in E as ->. destruct (Hrs Ht) as [Hw Hh].
      cbn. apply orb_false_intro.
      * destruct (is_None (get data "width" JNull)) eqn:E; [|reflexivity].
        apply is_None_get in E. contradiction.
      * destruct (is_None (get data "height" JNull)) eqn:E; [|reflexivity].
        apply is_None_get in E. contradiction.
    + destruct (eq_str t "rotate") eqn:E; [|reflexivity].
      apply eq_str_true in E as ->. cbn.
      destruct (is_None (get data "rotation_angle" JNull)) eqn:E;
        [|reflexivity].
      apply is_None_get in E. destruct (Hro Ht E).
Qed.

(** The validator either hands the request on unchanged or raises HTTP 422
    whose detail has an [error] text and one of the three [correct_format]
    examples; it raises nothing else. *)
Theorem validate_input_outcomes (data : dict) :
  validate_input data = Return data
  \/ exists (msg : string) (fmt : json),
       validate_input data =
         Raise (HTTPException 422
                  (JDict [("error", JStr msg); ("correct_format", fmt)]))
       /\ (fmt = correct_format \/ fmt = correct_format_resize
           \/ fmt = correct_format_rotate).
Proof.
  unfold validate_input, getitem.
  destruct (missing_fields data) eqn:Hm; [|right; eauto 6].
  apply missing_fields_nil in Hm as [_ [t ->]]. cbn [Py.bind].
  destruct (_ && _); [right; eauto 6|].
  destruct (_ && _); [right; eauto 7|left; reflexivity].
Qed.

(** ** The responses of POST /transform *)

Lemma prefix_append (p s : string) : String.prefix p (p ++ s) = true.
Proof.
  induction p as [|c p IH].
  - now destruct s.
  - simpl.
    destruct (ascii_dec c c); [exact IH | contradiction].
Qed.

Lemma validate_input_Raise_detail (data : dict) (e : exn) :
  validate_input data = Raise e ->
  exists (msg : string) (fmt : json),
    e = HTTPException 422
          (JDict [("error", JStr msg); ("correct_format", fmt)]).
Proof.
  unfold validate_input, getitem.
  destruct (missing_fields data) eqn:Hm; [|intros [= <-]; eauto].
  apply missing_fields_nil in Hm as [_ [t ->]]. cbn [Py.bind].
  destruct (_ && _); [intros [= <-]; eauto|].
  destruct (_ && _); [intros [= <-]; eauto|discriminate].
Qed.

(** Every response has one of four shapes: 200 with [transformed_image];
    422 with [error] and [correct_format]; 400 with a message that is the
    "Invalid image provided" text or starts with
    ["Invalid transformation type or parameter: "]; 500 with a message that
    starts with ["Internal server error: "]. In particular no other status
    code is ever sent. *)
Theorem post_transform_envelope `{PIL : Imaging} (data : dict) :
  (exists t : string,
     post_transform data =
     {| status := 200;
        content := JDict [("transformed_image", JStr t)] |})
  \/ (exists (msg : string) (fmt : json),
        post_transform data =
        {| status := 422;
           content :=
             JDict [("detail",
                     JDict [("error", JStr msg);
                            ("correct_format", fmt)])] |})
  \/ (exists msg : string,
        post_transform data = error_response 400 msg
        /\ (msg = "Invalid image provided. Ensure the image is a valid Base64 encoded string representing an image."
            \/ String.prefix "Invalid transformation type or parameter: " msg
               = true))
  \/ (exists msg : string,
        post_transform data = error_response 500 msg
        /\ String.prefix "Internal server error: " msg = true).
Proof.
  destruct (validate_input data) as [d|e] eqn:Hv.
  2:{ right. left.
      destruct (validate_input_Raise_detail data e Hv) as (msg & fmt & ->).
      exists msg, fmt. unfold post_transform. now rewrite Hv. }
  pose proof Hv as Hd. apply validate_input_Return in Hd as [-> _].
  rewrite (post_transform_validated _ Hv).
  unfold transform_image, try_except, transform_image_except.
  destruct (transform_image_try data) as [t|e]; [left; eauto|].
  right. right.
  destruct (isinstance e UnidentifiedImageError).
  { left. eexists. split; [reflexivity|]. now left. }
  destruct (isinstance e ValueError).
  - left. eexists. split; [reflexivity|]. right. apply prefix_append.
  - right. eexists. split; [reflexivity|]. apply prefix_append.
Qed.

(** POST /transform answers 200 with a given [transformed_image] exactly
    when the request passes validation and every stage returns: decoding,
    opening, the transformation and saving as JPEG, the text being the
    base64 of the saved bytes. *)
Theorem post_transform_200_iff `{PIL : Imaging} (data : dict) (t : string) :
  post_transform data =
    {| status := 200; content := JDict [("transformed_image", JStr t)] |}
  <->
  exists (v ty : json) (image_data : bytes) (image transformed_image : Image)
         (buffered : bytes),
    validate_input data = Return data
    /\ data !! "image" = Some v
    /\ data !! "transformation_type" = Some ty
    /\ b64decode v = Return image_data
    /\ Image_open image_data = Return image
    /\ process_image image ty
         (get data "rotation_angle" (JInt 0))
         (get data "width" (JInt 0))
         (get data "height" (JInt 0)) = Return transformed_image
    /\ Image_save transformed_image "JPEG" = Return buffered
    /\ t = b64encode buffered.
Proof.
  split.
  - intros H.
    assert (H200 : status (post_transform data) = 200) by now rewrite H.
    apply post_transform_200 in H200
      as (v & ty & image_data & image & tr & buffered
          & Hv & Hi & Ht & Hd & Ho & Hp & Hs & Hr).
    rewrite Hr in H. injection H as <-.
    exists v, ty, image_data, image, tr, buffered. repeat split; assumption.
  - intros (v & ty & image_data & image & tr & buffered
            & Hv & Hi & Ht & Hd & Ho & Hp & Hs & ->).
    rewrite (post_transform_validated _ Hv). unfold transform_image.
    rewrite (transform_image_try_opened data v ty _ _ Hi Ht Hd Ho), Hp.
    cbn [Py.bind]. rewrite Hs. reflexivity.
Qed.

(** Once the image is open, an exception of the transformation or of
    saving is answered by its class: an UnidentifiedImageError with 400
    "Invalid image provided", any other ValueError with 400 and its text,
    everything else with 500 and its text. *)
Theorem later_stage_error_by_class `{PIL : Imaging} (data : dict) (v ty : json)
    (image_data : bytes) (image : Image) (e : exn) :
  validate_input data = Return data ->
  data !! "image" = Some v ->
  data !! "transformation_type" = Some ty ->
  b64decode v = Return image_data ->
  Image_open image_data = Return image ->
  (process_image image ty
     (get data "rotation_angle" (JInt 0))
     (get data "width" (JInt 0))
     (get data "height" (JInt 0)) = Raise e
   \/ exists transformed_image,
        process_image image ty
          (get data "rotation_angle" (JInt 0))
          (get data "width" (JInt 0))
          (get data "height" (JInt 0)) = Return transformed_image
        /\ Image_save transformed_image "JPEG" = Raise e) ->
  post_transform data =
  if isinstance e UnidentifiedImageError then
    error_response 400
      "Invalid image provided. Ensure the image is a valid Base64 encoded string representing an image."
  else if isinstance e ValueError then
    error_response 400
      ("Invalid transformation type or parameter: " ++ str_exn e ++ ".")
  else error_response 500 ("Internal server error: " ++ str_exn e).
Proof.
  intros Hv Hi Ht Hd Ho Hstage.
  assert (Htry : transform_image_try data = Raise e).
  { rewrite (transform_image_try_opened data v ty _ _ Hi Ht Hd Ho).
    destruct Hstage as [-> | (tr & -> & Hs)]; [reflexivity|].
    cbn [Py.bind]. now rewrite Hs. }
  rewrite (post_transform_validated _ Hv).
  unfold transform_image, try_except, transform_image_except. rewrite Htry.
  destruct (isinstance e UnidentifiedImageError); [reflexivity|].
  destruct (isinstance e ValueError); reflexivity.
Qed.

Lemma later_stage_error_by_class_witness :
  post_transform (PIL := HeaderImaging.imaging)
    (request [("image", JStr "UDYKMSAxCjI1NQr/AAA=");
              ("transformation_type", JStr "sepia")]) =
  error_response 400
    "Invalid transformation type or parameter: Invalid transformation type.".
Proof.
  apply (later_stage_error_by_class (PIL := HeaderImaging.imaging)
           (request [("image", JStr "UDYKMSAxCjI1NQr/AAA=");
                     ("transformation_type", JStr "sepia")])
           (JStr "UDYKMSAxCjI1NQr/AAA=") (JStr "sepia") ppm_1x1
           {| HeaderImaging.format := Some "PPM"; HeaderImaging.mode := "RGB";
              HeaderImaging.size := (1, 1) |}
           (Exc ValueError "Invalid transformation type")).
  - vm_compute. reflexivity.
  - reflexivity.
  - reflexivity.
  - reflexivity.
  - reflexivity.
  - left. reflexivity.
Defined.

(** The validator does not look at the value of [image]: when it is not a
    string (null, a number, a boolean, an array, an object) the request
    still passes a validator it otherwise satisfies, the decoder raises
    TypeError, and the answer is 500 naming the type. *)
Theorem non_string_image_is_500 `{PIL : Imaging} (data : dict) (v : json) :
  validate_input data = Return data ->
  data !! "image" = Some v ->
  (forall s, v <> JStr s) ->
  post_transform data =
  error_response 500
    ("Internal server error: argument should be a bytes-like object or ASCII string, not "
     ++ repr_str (type_name v)).
Proof.
  intros Hv Hi Hns.
  pose proof Hv as Hv'. apply validate_input_Return in Hv'
    as (_ & v' & t & _ & Ht & _).
  assert (Htry : transform_image_try data =
                 Raise (Exc TypeError
                          ("argument should be a bytes-like object or ASCII string, not "
                           ++ repr_str (type_name v)))).
  { rewrite (transform_image_try_stages data v t Hi Ht).
    destruct v; try reflexivity. now destruct (Hns s). }
  rewrite (post_transform_Exception data _ Hv Htry eq_refl eq_refl).
  reflexivity.
Qed.

Lemma non_string_image_is_500_witness :
  post_transform (PIL := HeaderImaging.imaging)
    (request [("image", JNull); ("transformation_type", JStr "grayscale")]) =
  error_response 500
    "Internal server error: argument should be a bytes-like object or ASCII string, not 'NoneType'".
Proof.
  apply (non_string_image_is_500 (PIL := HeaderImaging.imaging)
           (request [("image", JNull);
                     ("transformation_type", JStr "grayscale")]) JNull).
  - vm_compute. reflexivity.
  - reflexivity.
  - discriminate.
Defined.

(** The dimension check [width <= 0 or height <= 0] of a resize, for
    numbers of any kind: when width is a number that is zero or negative,
    the answer is 400 whatever the non-null height is, which is not looked
    at; when width is a positive number and height a number that is zero
    or negative, the answer is the same 400. *)
Theorem resize_dimension_check `{PIL : Imaging} (data : dict) (v w h : json)
    (image_data : bytes) (image : Image) :
  data !! "image" = Some v ->
  b64decode v = Return image_data ->
  Image_open image_data = Return image ->
  data !! "transformation_type" = Some (JStr "resize") ->
  data !! "width" = Some w ->
  data !! "height" = Some h ->
  (le_zero w = Return true /\ h <> JNull)
  \/ (le_zero w = Return false /\ le_zero h = Return true) ->
  post_transform data =
  error_response 400
    "Invalid transformation type or parameter: Width and height must be positive integers for resizing..".
Proof.
  intros Hi Hd Ho Ht Hw Hh Hcond.
  assert (Hwn : is_None w = false).
  { destruct Hcond as [[Hle _] | [Hle _]]; destruct w; try reflexivity;
      discriminate. }
  assert (Hhn : is_None h = false).
  { destruct Hcond as [[_ Hn] | [_ Hle]]; destruct h; try reflexivity;
      congruence || discriminate. }
  assert (Hv : validate_input data = Return data).
  { apply validate_input_Return. split; [reflexivity|].
    exists v, (JStr "resize"). unfold get. rewrite Hw, Hh, Hwn, Hhn.
    repeat split; assumption || reflexivity. }
  apply (post_transform_ValueError data
           (Exc ValueError
              "Width and height must be positive integers for resizing.") Hv);
    [|reflexivity|reflexivity].
  rewrite (transform_image_try_opened data v _ _ _ Hi Ht Hd Ho).
  rewrite process_image_resize. unfold get. rewrite Hw, Hh.
  destruct Hcond as [[-> _] | [-> ->]]; reflexivity.
Qed.

Lemma resize_dimension_check_witness :
  post_transform (PIL := HeaderImaging.imaging)
    (request [("image", JStr "UDYKMSAxCjI1NQr/AAA=");
              ("transformation_type", JStr "resize");
              ("width", JFloat (-1.5)%float); ("height", JStr "tall")]) =
  error_response 400
    "Invalid transformation type or parameter: Width and height must be positive integers for resizing..".
Proof.
  apply (resize_dimension_check (PIL := HeaderImaging.imaging)
           (request [("image", JStr "UDYKMSAxCjI1NQr/AAA=");
                     ("transformation_type", JStr "resize");
                     ("width", JFloat (-1.5)%float); ("height", JStr "tall")])
           (JStr "UDYKMSAxCjI1NQr/AAA=") (JFloat (-1.5)%float) (JStr "tall")
           ppm_1x1
           {| HeaderImaging.format := Some "PPM"; HeaderImaging.mode := "RGB";
              HeaderImaging.size := (1, 1) |});
    try reflexivity.
  left. split; [reflexivity|discriminate].
Defined.

(** ** What a response depends on *)

Section Dependence.
Context {PIL : Imaging}.

Lemma used_parameters_resize (t : json) :
  eq_str t "resize" = true -> used_parameters t = ["width"; "height"].
Proof. intros E. unfold used_parameters. now rewrite E. Qed.

Lemma used_parameters_rotate (t : json) :
  eq_str t "rotate" = true -> used_parameters t = ["rotation_angle"].
Proof.
  intros E. apply eq_str_true in E as ->. reflexivity.
Qed.

Lemma get_agree (data data' : dict) (k : string) (default : json) :
  data !! k = data' !! k -> get data k default = get data' k default.
Proof. unfold get. now intros ->. Qed.

(** Two requests that agree on whether [image] is there, on
    [transformation_type] and on the parameters it uses are both accepted
    or both rejected with the same exception. *)
Lemma validate_input_agree (data data' : dict) :
  (is_Some (data !! "image") <-> is_Some (data' !! "image")) ->
  data !! "transformation_type" = data' !! "transformation_type" ->
  (forall t k, data !! "transformation_type" = Some t ->
               In k (used_parameters t) -> data !! k = data' !! k) ->
  (validate_input data = Return data /\ validate_input data' = Return data')
  \/ exists e, validate_input data = Raise e /\ validate_input data' = Raise e.
Proof.
  intros Hi Ht Hp.
  assert (Hm : missing_fields data = missing_fields data').
  { rewrite !missing_fields_eq. unfold contains. rewrite <- Ht.
    destruct (data !! "image"), (data' !! "image"); try reflexivity.
    - destruct (proj1 Hi) as [? [=]]; eauto.
    - destruct (proj2 Hi) as [? [=]]; eauto. }
  unfold validate_input, getitem. rewrite <- Hm, <- Ht.
  destruct (missing_fields data) eqn:Hmd; [|right; eauto].
  apply missing_fields_nil in Hmd as [_ [t Htt]]. rewrite Htt.
  cbn [Py.bind].
  destruct (eq_str t "resize") eqn:Ers.
  { pose proof (used_parameters_resize t Ers) as Hu.
    rewrite <- (get_agree data data' "width"),
            <- (get_agree data data' "height")
      by (apply (Hp t); [exact Htt | rewrite Hu; cbn; auto]).
    cbn [andb]. destruct (_ || _); [right; eauto|].
    apply eq_str_true in Ers as ->. cbn. left. auto. }
  cbn [andb].
  destruct (eq_str t "rotate") eqn:Ero.
  { pose proof (used_parameters_rotate t Ero) as Hu.
    rewrite <- (get_agree data data' "rotation_angle")
      by (apply (Hp t); [exact Htt | rewrite Hu; cbn; auto]).
    cbn [andb]. destruct (is_None _); [right; eauto|left; auto]. }
  left. auto.
Qed.

Lemma process_image_agree (image : Image) (t : json) (data data' : dict) :
  (forall k, In k (used_parameters t) -> data !! k = data' !! k) ->
  process_image image t
    (get data "rotation_angle" (JInt 0))
    (get data "width" (JInt 0))
    (get data "height" (JInt 0)) =
  process_image image t
    (get data' "rotation_angle" (JInt 0))
    (get data' "width" (JInt 0))
    (get data' "height" (JInt 0)).
Proof.
  intros Hp. unfold process_image.
  destruct (eq_str t "grayscale"); [reflexivity|].
  destruct (eq_str t "rotate") eqn:Ero.
  { rewrite (get_agree data data' "rotation_angle"); [reflexivity|].
    apply Hp. rewrite (used_parameters_rotate t Ero). cbn. auto. }
  destruct (eq_str t "resize") eqn:Ers; [|reflexivity].
  rewrite (get_agree data data' "width"), (get_agree data data' "height");
    [reflexivity| |];
    apply Hp; rewrite (used_parameters_resize t Ers); cbn; auto.
Qed.

(** The response is a function of the decoded image, the transformation
    type and the parameters that type uses. *)
Lemma post_transform_agree (data data' : dict) :
  (is_Some (data !! "image") <-> is_Some (data' !! "image")) ->
  (forall v v', data !! "image" = Some v -> data' !! "image" = Some v' ->
                b64decode v = b64decode v') ->
  data !! "transformation_type" = data' !! "transformation_type" ->
  (forall t k, data !! "transformation_type" = Some t ->
               In k (used_parameters t) -> data !! k = data' !! k) ->
  post_transform data = post_transform data'.
Proof.
  intros Hi Hd Ht Hp.
  destruct (validate_input_agree data data' Hi Ht Hp)
    as [[Hv Hv'] | (e & Hv & Hv')].
  2:{ unfold post_transform. now rewrite Hv, Hv'. }
  rewrite (post_transform_validated _ Hv), (post_transform_validated _ Hv').
  pose proof Hv as H. apply validate_input_Return in H
    as (_ & v & t & Hiv & Htv & _).
  pose proof Hv' as H. apply validate_input_Return in H
    as (_ & v' & t' & Hiv' & Htv' & _).
  assert (t' = t) as -> by congruence.
  unfold transform_image.
  rewrite (transform_image_try_stages data v t Hiv Htv).
  rewrite (transform_image_try_stages data' v' t Hiv' Htv').
  rewrite (Hd v v' Hiv Hiv').
  destruct (b64decode v') as [image_data|]; [|reflexivity].
  cbn [Py.bind].
  destruct (Image_open image_data) as [image|]; [|reflexivity].
  cbn [Py.bind try_except].
  now rewrite (process_image_agree image t data data' (fun k => Hp t k Htv)).
Qed.

End Dependence.

(** Fields a transformation does not use have no effect on the response:
    two requests with the same [image] and [transformation_type] that
    agree on width and height for a resize, on rotation_angle for a
    rotate, and on nothing else for any other type, get the same answer.
    So unknown fields are ignored, and so are ill-typed or negative
    parameters of another transformation. *)
Theorem unused_fields_ignored `{PIL : Imaging} (data data' : dict) :
  data !! "image" = data' !! "image" ->
  data !! "transformation_type" = data' !! "transformation_type" ->
  (forall t k, data !! "transformation_type" = Some t ->
               In k (used_parameters t) -> data !! k = data' !! k) ->
  post_transform data = post_transform data'.
Proof.
  intros Hi Ht Hp. apply post_transform_agree; try assumption.
  - now rewrite Hi.
  - intros v v' Hv Hv'. congruence.
Qed.

Lemma unused_fields_ignored_witness :
  post_transform (PIL := HeaderImaging.imaging)
    (request [("image", JStr "UDYKMSAxCjI1NQr/AAA=");
              ("transformation_type", JStr "grayscale");
              ("width", JStr "wide"); ("height", JInt (-3));
              ("rotation_angle", JNull); ("note", JBool true)]) =
  post_transform (PIL := HeaderImaging.imaging)
    (request [("image", JStr "UDYKMSAxCjI1NQr/AAA=");
              ("transformation_type", JStr "grayscale")]).
Proof.
  apply (unused_fields_ignored (PIL := HeaderImaging.imaging)).
  - reflexivity.
  - reflexivity.
  - intros t k [= <-] [].
Defined.

(** ** Characters the decoder skips *)

Lemma a2b_loop_strip (s : string) (quad_pos leftchar pads n_out : N) :
  a2b_loop (strip s) quad_pos leftchar pads n_out =
  a2b_loop s quad_pos leftchar pads n_out.
Proof.
  revert quad_pos leftchar pads n_out.
  induction s as [|c rest IH]; intros quad_pos leftchar pads n_out;
    [reflexivity|].
  cbn [strip]. unfold significant.
  destruct (Ascii.eqb c BASE64_PAD) eqn:Ep; cbn [orb].
  - cbn [a2b_loop]. rewrite Ep. now rewrite !IH.
  - destruct (table_a2b_base64 c) as [n|] eqn:Et.
    + cbn [a2b_loop]. rewrite Ep, Et. now rewrite !IH.
    + cbn [a2b_loop]. rewrite Ep, Et. apply IH.
Qed.

Lemma is_ascii_strip (s : string) :
  is_ascii s = true -> is_ascii (strip s) = true.
Proof.
  induction s as [|c rest IH]; [reflexivity|]. cbn [is_ascii strip].
  intros H. apply andb_prop in H as [Hc Hr].
  destruct (significant c); [cbn [is_ascii]; rewrite Hc|]; auto.
Qed.

Lemma b64decode_strip (s : string) :
  is_ascii s = true -> b64decode (JStr (strip s)) = b64decode (JStr s).
Proof.
  intros H. unfold b64decode, a2b_base64.
  rewrite H, (is_ascii_strip s H). apply a2b_loop_strip.
Qed.

(** The image is decoded in non-strict mode: ASCII characters outside the
    base64 alphabet (line breaks, spaces, punctuation) are skipped, so a
    request whose image contains them gets the same response as with
    those characters removed. *)
Theorem skipped_characters_ignored `{PIL : Imaging} (data : dict) (s : string) :
  data !! "image" = Some (JStr s) ->
  is_ascii s = true ->
  post_transform data = post_transform (<["image" := JStr (strip s)]> data).
Proof.
  intros Hi Ha. apply post_transform_agree.
  - rewrite Hi, lookup_insert_eq. split; eauto.
  - intros v v'. rewrite Hi, lookup_insert_eq. intros [= <-] [= <-].
    symmetry. now apply b64decode_strip.
  - now rewrite lookup_insert_ne.
  - intros t k Ht Hk. rewrite lookup_insert_ne; [reflexivity|].
    intros <-. unfold used_parameters in Hk.
    destruct (eq_str t "resize"); [cbn in Hk; intuition discriminate|].
    destruct (eq_str t "rotate"); cbn in Hk; intuition discriminate.
Qed.

Lemma skipped_characters_ignored_witness :
  strip "UDYK MSAx-CjI1 NQr/ AAA=" = "UDYKMSAxCjI1NQr/AAA="
  /\ post_transform (PIL := HeaderImaging.imaging)
       (request [("image", JStr "UDYK MSAx-CjI1 NQr/ AAA=");
                 ("transformation_type", JStr "grayscale")]) =
     post_transform (PIL := HeaderImaging.imaging)
       (<["image" := JStr (strip "UDYK MSAx-CjI1 NQr/ AAA=")]>
          (request [("image", JStr "UDYK MSAx-CjI1 NQr/ AAA=");
                    ("transformation_type", JStr "grayscale")])).
Proof.
  split; [reflexivity|].
  apply (skipped_characters_ignored (PIL := HeaderImaging.imaging)).
  - reflexivity.
  - reflexivity.
Defined.

(** ** The three transformations *)

Section Transformations.
Context {PIL : Imaging}.

(** What a request with an open image and a transformation that returns
    is answered with. *)
Lemma post_transform_transformed (data : dict) (v t : json)
    (image_data : bytes) (image transformed_image : Image) (jpeg : bytes) :
  validate_input data = Return data ->
  data !! "image" = Some v ->
  data !! "transformation_type" = Some t ->
  b64decode v = Return image_data ->
  Image_open image_data = Return image ->
  process_image image t
    (get data "rotation_angle" (JInt 0))
    (get data "width" (JInt 0))
    (get data "height" (JInt 0)) = Return transformed_image ->
  Image_save transformed_image "JPEG" = Return jpeg ->
  post_transform data =
  {| status := 200;
     content := JDict [("transformed_image", JStr (b64encode jpeg))] |}.
Proof.
  intros Hv Hi Ht Hd Ho Hp Hs.
  rewrite (post_transform_validated _ Hv). unfold transform_image.
  rewrite (transform_image_try_opened data v t _ _ Hi Ht Hd Ho), Hp.
  cbn [Py.bind]. now rewrite Hs.
Qed.

End Transformations.

(** A grayscale request needs nothing but a decodable image: whatever else
    the request holds, the image is converted to mode ["L"], saved as
    JPEG, and the answer is 200 with the base64 of the saved bytes. *)
Theorem grayscale_request `{PIL : Imaging} (data : dict) (v : json)
    (image_data : bytes) (image gray : Image) (jpeg : bytes) :
  data !! "image" = Some v ->
  data !! "transformation_type" = Some (JStr "grayscale") ->
  b64decode v = Return image_data ->
  Image_open image_data = Return image ->
  Image_convert image "L" = Return gray ->
  Image_save gray "JPEG" = Return jpeg ->
  post_transform data =
  {| status := 200;
     content := JDict [("transformed_image", JStr (b64encode jpeg))] |}.
Proof.
  intros Hi Ht Hd Ho Hc Hs.
  apply (post_transform_transformed data v (JStr "grayscale")
           image_data image gray);
    try assumption.
  apply validate_input_Return. split; [reflexivity|].
  exists v, (JStr "grayscale"). repeat split; assumption || reflexivity.
Qed.

Lemma grayscale_request_witness :
  post_transform (PIL := HeaderImaging.imaging)
    (request [("image", JStr "UDYKMSAxCjI1NQr/AAA=");
              ("transformation_type", JStr "grayscale");
              ("width", JInt (-1))]) =
  {| status := 200;
     content := JDict [("transformed_image", JStr "/9j/wAALCAABAAEB/9k=")] |}.
Proof.
  apply (grayscale_request (PIL := HeaderImaging.imaging)
           (request [("image", JStr "UDYKMSAxCjI1NQr/AAA=");
                     ("transformation_type", JStr "grayscale");
                     ("width", JInt (-1))])
           (JStr "UDYKMSAxCjI1NQr/AAA=") ppm_1x1
           {| HeaderImaging.format := Some "PPM"; HeaderImaging.mode := "RGB";
              HeaderImaging.size := (1, 1) |}
           {| HeaderImaging.format := None; HeaderImaging.mode := "L";
              HeaderImaging.size := (1, 1) |}
           [xff; xd8; xff; xc0; x00; x0b; x08; x00; x01; x00; x01; x01;
            xff; xd9]);
    reflexivity.
Defined.

(** A rotate request hands its rotation_angle, whatever non-null value it
    is, to the library unchanged together with [expand=True]; width and
    height play no part. *)
Theorem rotate_request `{PIL : Imaging} (data : dict) (v angle : json)
    (image_data : bytes) (image rotated : Image) (jpeg : bytes) :
  data !! "image" = Some v ->
  data !! "transformation_type" = Some (JStr "rotate") ->
  data !! "rotation_angle" = Some angle ->
  angle <> JNull ->
  b64decode v = Return image_data ->
  Image_open image_data = Return image ->
  Image_rotate image angle true = Return rotated ->
  Image_save rotated "JPEG" = Return jpeg ->
  post_transform data =
  {| status := 200;
     content := JDict [("transformed_image", JStr (b64encode jpeg))] |}.
Proof.
  intros Hi Ht Ha Hn Hd Ho Hr Hs.
  apply (post_transform_transformed data v (JStr "rotate")
           image_data image rotated);
    try assumption.
  - apply validate_input_Return. split; [reflexivity|].
    exists v, (JStr "rotate"). unfold get. rewrite Ha.
    repeat split; try assumption; try reflexivity.
    destruct angle; try reflexivity. congruence.
  - rewrite process_image_rotate. unfold get. now rewrite Ha.
Qed.

Lemma rotate_request_witness :
  post_transform (PIL := HeaderImaging.imaging)
    (request [("image", JStr "UDYKMSAxCjI1NQr/AAA=");
              ("transformation_type", JStr "rotate");
              ("rotation_angle", JInt (-90))]) =
  {| status := 200;
     content := JDict [("transformed_image", JStr "/9j/wAALCAABAAED/9k=")] |}.
Proof.
  apply (rotate_request (PIL := HeaderImaging.imaging)
           (request [("image", JStr "UDYKMSAxCjI1NQr/AAA=");
                     ("transformation_type", JStr "rotate");
                     ("rotation_angle", JInt (-90))])
           (JStr "UDYKMSAxCjI1NQr/AAA=") (JInt (-90)) ppm_1x1
           {| HeaderImaging.format := Some "PPM"; HeaderImaging.mode := "RGB";
              HeaderImaging.size := (1, 1) |}
           {| HeaderImaging.format := None; HeaderImaging.mode := "RGB";
              HeaderImaging.size := (1, 1) |}
           [xff; xd8; xff; xc0; x00; x0b; x08; x00; x01; x00; x01; x03;
            xff; xd9]);
    try reflexivity.
  discriminate.
Defined.

(** A resize request whose width and height both compare as greater than
    0 hands the pair (width, height) to the library as it came, without
    conversion or rounding; rotation_angle plays no part. *)
Theorem resize_request `{PIL : Imaging} (data : dict) (v w h : json)
    (image_data : bytes) (image resized : Image) (jpeg : bytes) :
  data !! "image" = Some v ->
  data !! "transformation_type" = Some (JStr "resize") ->
  data !! "width" = Some w ->
  data !! "height" = Some h ->
  le_zero w = Return false ->
  le_zero h = Return false ->
  b64decode v = Return image_data ->
  Image_open image_data = Return image ->
  Image_resize image (w, h) = Return resized ->
  Image_save resized "JPEG" = Return jpeg ->
  post_transform data =
  {| status := 200;
     content := JDict [("transformed_image", JStr (b64encode jpeg))] |}.
Proof.
  intros Hi Ht Hw Hh Hlw Hlh Hd Ho Hr Hs.
  apply (post_transform_transformed data v (JStr "resize")
           image_data image resized);
    try assumption.
  - apply validate_input_Return. split; [reflexivity|].
    exists v, (JStr "resize"). unfold get. rewrite Hw, Hh.
    repeat split; try assumption; try reflexivity.
    destruct w; try discriminate; destruct h; try discriminate; reflexivity.
  - rewrite process_image_resize. unfold get. rewrite Hw, Hh, Hlw.
    cbn [Py.bind]. rewrite Hlh. exact Hr.
Qed.

Lemma resize_request_witness :
  post_transform (PIL := HeaderImaging.imaging)
    (request [("image", JStr "UDYKMSAxCjI1NQr/AAA=");
              ("transformation_type", JStr "resize");
              ("width", JInt 5); ("height", JInt 20)]) =
  {| status := 200;
     content := JDict [("transformed_image", JStr "/9j/wAALCAAUAAUD/9k=")] |}.
Proof.
  apply (resize_request (PIL := HeaderImaging.imaging)
           (request [("image", JStr "UDYKMSAxCjI1NQr/AAA=");
                     ("transformation_type", JStr "resize");
                     ("width", JInt 5); ("height", JInt 20)])
           (JStr "UDYKMSAxCjI1NQr/AAA=") (JInt 5) (JInt 20) ppm_1x1
           {| HeaderImaging.format := Some "PPM"; HeaderImaging.mode := "RGB";
              HeaderImaging.size := (1, 1) |}
           {| HeaderImaging.format := None; HeaderImaging.mode := "RGB";
              HeaderImaging.size := (5, 20) |}
           [xff; xd8; xff; xc0; x00; x0b; x08; x00; x14; x00; x05; x03;
            xff; xd9]);
    reflexivity.
Defined.

(** ** The text of a successful response *)




(** ** Log records *)

Section LogFacts.
Context {PIL : Imaging}.
Import Logged.

(** The log and outcome of the [try] body, stage by stage. *)
Lemma transform_image_try_log (data : dict) (v t : json) :
  data !! "image" = Some v ->
  data !! "transformation_type" = Some t ->
  MainLogged.transform_image_try_logged data =
  match b64decode v with
  | Raise e =>
      (map MainLogged.info_record (take 2 (MainLogged.stage_messages t)),
       Raise e)
  | Return image_data =>
      match Image_open image_data with
      | Raise e =>
          ((map MainLogged.info_record (take 4 (MainLogged.stage_messages t))
            ++ [{| levelname := ERROR;
                   message := [Text "Invalid image file: "; ExnText e;
                               Text ". Returning to user: ";
                               Value invalid_image_file] |}])%list,
           Raise (HTTPException 400 invalid_image_file))
      | Return image =>
          match process_image image t
                  (get data "rotation_angle" (JInt 0))
                  (get data "width" (JInt 0))
                  (get data "height" (JInt 0)) with
          | Raise e =>
              (map MainLogged.info_record
                 (take 6 (MainLogged.stage_messages t)), Raise e)
          | Return transformed_image =>
              match Image_save transformed_image "JPEG" with
              | Raise e =>
                  (map MainLogged.info_record
                     (take 7 (MainLogged.stage_messages t)), Raise e)
              | Return buffered =>
                  (map MainLogged.info_record (MainLogged.stage_messages t),
                   Return (b64encode buffered))
              end
          end
      end
  end.
Proof.
  intros Hi Ht. unfold MainLogged.transform_image_try_logged, getitem.
  rewrite Hi, Ht. cbn.
  destruct (b64decode v) as [image_data|e]; [|reflexivity]. cbn.
  destruct (Image_open image_data) as [image|e]; [|reflexivity]. cbn.
  destruct (process_image image t _ _ _) as [tr|e]; [|reflexivity]. cbn.
  destruct (Image_save tr "JPEG") as [buffered|e]; reflexivity.
Qed.

Lemma snd_transform_image_try (data : dict) :
  snd (MainLogged.transform_image_try_logged data) = transform_image_try data.
Proof.
  destruct (data !! "transformation_type") as [t|] eqn:Ht.
  2:{ unfold MainLogged.transform_image_try_logged, transform_image_try, getitem.
      now rewrite Ht. }
  destruct (data !! "image") as [v|] eqn:Hi.
  2:{ unfold MainLogged.transform_image_try_logged, transform_image_try, getitem.
      now rewrite Ht, Hi. }
  rewrite (transform_image_try_log data v t Hi Ht).
  rewrite (transform_image_try_stages data v t Hi Ht).
  destruct (b64decode v) as [image_data|e]; [|reflexivity]. cbn [Py.bind].
  destruct (Image_open image_data) as [image|e]; [|reflexivity].
  cbn [Py.bind Py.try_except].
  destruct (process_image image t _ _ _) as [tr|e]; [|reflexivity].
  cbn [Py.bind].
  destruct (Image_save tr "JPEG") as [buffered|e]; reflexivity.
Qed.

(** Each [except] clause writes one ERROR record, which ends with the
    detail it raises. *)
Lemma transform_image_except_log (e : exn) :
  exists (sc : Z) (detail : json) (text : list piece),
    MainLogged.transform_image_except_logged e =
    ([{| levelname := ERROR; message := (text ++ [Value detail])%list |}],
     Raise (HTTPException sc detail))
    /\ transform_image_except e = Raise (HTTPException sc detail).
Proof.
  unfold MainLogged.transform_image_except_logged, transform_image_except.
  destruct (isinstance e UnidentifiedImageError).
  { exists 400, invalid_image_provided,
      [Text "Invalid image provided. Returning to user: "]. now split. }
  destruct (isinstance e ValueError).
  - eexists 400, _,
      [Text "Invalid transformation type or parameter. Returning to user: "].
    now split.
  - eexists 500, _,
      [Text "Error during transformation: "; ExnText e;
       Text ". Returning to user: "].
    now split.
Qed.

Lemma snd_transform_image (data : dict) :
  snd (MainLogged.transform_image_logged data) = transform_image data.
Proof.
  unfold MainLogged.transform_image_logged, transform_image, Logged.catch, Py.try_except.
  rewrite <- snd_transform_image_try.
  destruct (MainLogged.transform_image_try_logged data) as [l [s|e]];
    [reflexivity|].
  cbn [snd Py.try_except].
  destruct (transform_image_except_log e) as (sc & detail & text & -> & ->).
  reflexivity.
Qed.

Lemma messages_app (lvl : level) (l l' : list record) :
  MainLogged.messages lvl (l ++ l') =
  (MainLogged.messages lvl l ++ MainLogged.messages lvl l')%list.
Proof. unfold MainLogged.messages. now rewrite List.filter_app, map_app. Qed.

Lemma messages_INFO_info (msgs : list (list piece)) :
  MainLogged.messages INFO (map MainLogged.info_record msgs) = msgs.
Proof.
  induction msgs as [|m msgs IH]; [reflexivity|].
  cbn. f_equal. exact IH.
Qed.

Lemma messages_ERROR_info (msgs : list (list piece)) :
  MainLogged.messages ERROR (map MainLogged.info_record msgs) = [].
Proof. induction msgs as [|m msgs IH]; [reflexivity|exact IH]. Qed.

End LogFacts.

(** The functions with log records and the ones without agree on the
    outcome. *)
Lemma logging_changes_no_result `{PIL : Imaging} (data : dict) :
  snd (MainLogged.validate_input_logged data) = validate_input data
  /\ snd (MainLogged.transform_image_logged data) = transform_image data
  /\ snd (MainLogged.post_transform_logged data) =
     (do request_data <- validate_input data; transform_image request_data).
Proof.
  assert (Hv : snd (MainLogged.validate_input_logged data) = validate_input data).
  { unfold MainLogged.validate_input_logged, validate_input, getitem.
    destruct (missing_fields data) eqn:Hm; [|reflexivity].
    apply missing_fields_nil in Hm as [_ [t ->]]. cbn.
    destruct (_ && _); [reflexivity|]. cbn.
    destruct (_ && _); reflexivity. }
  split; [exact Hv|]. split; [apply snd_transform_image|].
  unfold MainLogged.post_transform_logged, Logged.seq. rewrite <- Hv.
  destruct (MainLogged.validate_input_logged data) as [l [d|e]]; [|reflexivity].
  cbn [snd Py.bind]. apply snd_transform_image.
Qed.

(** The validator writes nothing when it accepts, and when it rejects
    exactly one ERROR record, ["Returning to user: "] followed by the very
    detail it raises with 422. *)
Theorem validate_input_log (data : dict) :
  MainLogged.validate_input_logged data = ([], Return data)
  \/ exists detail : json,
       MainLogged.validate_input_logged data =
       ([{| Logged.levelname := Logged.ERROR;
            Logged.message := [Logged.Text "Returning to user: ";
                               Logged.Value detail] |}],
        Raise (HTTPException 422 detail)).
Proof.
  unfold MainLogged.validate_input_logged, getitem.
  destruct (missing_fields data) eqn:Hm; [|right; eexists; reflexivity].
  apply missing_fields_nil in Hm as [_ [t ->]]. cbn.
  destruct (_ && _); [right; eexists; reflexivity|]. cbn.
  destruct (_ && _); [right; eexists; reflexivity|left; reflexivity].
Qed.

(** The INFO records of the handler are an initial part of the nine stage
    messages, in order, and all nine are there exactly when the handler
    returns. *)
Theorem transform_image_info_trail `{PIL : Imaging} (data : dict) (t : json) :
  validate_input data = Return data ->
  data !! "transformation_type" = Some t ->
  MainLogged.messages Logged.INFO (fst (MainLogged.transform_image_logged data))
    `prefix_of` MainLogged.stage_messages t
  /\ (MainLogged.messages Logged.INFO (fst (MainLogged.transform_image_logged data))
      = MainLogged.stage_messages t
      <-> exists s, snd (MainLogged.transform_image_logged data) = Return s).
Proof.
  intros Hv Ht.
  pose proof Hv as H. apply validate_input_Return in H
    as (_ & v & t' & Hi & Ht' & _).
  assert (t' = t) as -> by congruence.
  assert (Hex : forall (l : list Logged.record) (e : exn),
            MainLogged.messages Logged.INFO
              (l ++ fst (MainLogged.transform_image_except_logged e))
            = MainLogged.messages Logged.INFO l
            /\ forall s, snd (MainLogged.transform_image_except_logged e)
                         <> Return s).
  { intros l e. destruct (transform_image_except_log e)
      as (sc & detail & text & -> & _).
    rewrite messages_app. cbn. rewrite app_nil_r. split; [reflexivity|].
    discriminate. }
  unfold MainLogged.transform_image_logged, Logged.catch.
  rewrite (transform_image_try_log data v t Hi Ht).
  destruct (b64decode v) as [image_data|e].
  2:{ cbn [fst snd]. destruct (Hex (map MainLogged.info_record
                                      (take 2 (MainLogged.stage_messages t))) e)
        as [-> Hne].
      rewrite messages_INFO_info.
      split; [eexists; reflexivity|].
      split; [discriminate|]. intros [s Hs]. destruct (Hne s Hs). }
  destruct (Image_open image_data) as [image|e].
  2:{ cbn [fst snd].
      match goal with
      | |- context [(?l ++ fst (MainLogged.transform_image_except_logged ?x))%list] =>
          destruct (Hex l x) as [-> Hne]
      end.
      rewrite messages_app, messages_INFO_info. cbn.
      split; [eexists; reflexivity|].
      split; [discriminate|]. intros [s Hs]. destruct (Hne s Hs). }
  destruct (process_image image t _ _ _) as [tr|e].
  2:{ cbn [fst snd]. destruct (Hex (map MainLogged.info_record
                                      (take 6 (MainLogged.stage_messages t))) e)
        as [-> Hne].
      rewrite messages_INFO_info.
      split; [eexists; reflexivity|].
      split; [discriminate|]. intros [s Hs]. destruct (Hne s Hs). }
  destruct (Image_save tr "JPEG") as [buffered|e].
  2:{ cbn [fst snd]. destruct (Hex (map MainLogged.info_record
                                      (take 7 (MainLogged.stage_messages t))) e)
        as [-> Hne].
      rewrite messages_INFO_info.
      split; [eexists; reflexivity|].
      split; [discriminate|]. intros [s Hs]. destruct (Hne s Hs). }
  cbn [fst snd]. rewrite messages_INFO_info.
  split; [reflexivity|]. split; eauto.
Qed.

Lemma transform_image_info_trail_witness :
  MainLogged.messages Logged.INFO
    (fst (MainLogged.transform_image_logged (PIL := HeaderImaging.imaging)
            (request [("image", JStr "aGVsbG8=");
                      ("transformation_type", JStr "grayscale")])))
    `prefix_of` MainLogged.stage_messages (JStr "grayscale").
Proof.
  apply (transform_image_info_trail (PIL := HeaderImaging.imaging)
           (request [("image", JStr "aGVsbG8=");
                     ("transformation_type", JStr "grayscale")])
           (JStr "grayscale")).
  - vm_compute. reflexivity.
  - reflexivity.
Defined.

(** What the handler tells the user it also writes down: a handler that
    returns has written no ERROR record, and one that raises has, as its
    last record, an ERROR record that ends with the detail of the
    HTTPException it raises. *)
Theorem transform_image_error_record `{PIL : Imaging} (data : dict) :
  (exists s,
     snd (MainLogged.transform_image_logged data) = Return s
     /\ MainLogged.messages Logged.ERROR
          (fst (MainLogged.transform_image_logged data)) = [])
  \/ (exists (sc : Z) (detail : json) (before : list Logged.record)
             (text : list Logged.piece),
        snd (MainLogged.transform_image_logged data)
          = Raise (HTTPException sc detail)
        /\ fst (MainLogged.transform_image_logged data) =
           (before ++ [{| Logged.levelname := Logged.ERROR;
                          Logged.message :=
                            (text ++ [Logged.Value detail])%list |}])%list).
Proof.
  unfold MainLogged.transform_image_logged, Logged.catch.
  destruct (MainLogged.transform_image_try_logged data) as [l [s|e]] eqn:Htry.
  2:{ right. destruct (transform_image_except_log e)
        as (sc & detail & text & -> & _).
      exists sc, detail, l, text. split; reflexivity. }
  left. exists s. split; [reflexivity|]. cbn [fst].
  destruct (data !! "transformation_type") as [t|] eqn:Ht.
  2:{ unfold MainLogged.transform_image_try_logged, getitem in Htry.
      rewrite Ht in Htry. discriminate. }
  destruct (data !! "image") as [v|] eqn:Hi.
  2:{ unfold MainLogged.transform_image_try_logged, getitem in Htry.
      rewrite Ht, Hi in Htry. discriminate. }
  rewrite (transform_image_try_log data v t Hi Ht) in Htry.
  destruct (b64decode v) as [image_data|]; [|discriminate].
  destruct (Image_open image_data) as [image|]; [|discriminate].
  destruct (process_image image t _ _ _) as [tr|]; [|discriminate].
  destruct (Image_save tr "JPEG") as [buffered|]; [|discriminate].
  injection Htry as <- _. reflexivity.
Qed.

(** A decoded image that does not open leaves two ERROR records: the
    inner clause announces the 400 "Invalid image file" as returned to the
    user, then the outer [except Exception] clause, which has caught that
    HTTPException, announces the 500 that is in fact raised. *)
Theorem unparseable_image_log `{PIL : Imaging} (data : dict) (v : json)
    (image_data : bytes) (e : exn) :
  validate_input data = Return data ->
  data !! "image" = Some v ->
  b64decode v = Return image_data ->
  Image_open image_data = Raise e ->
  MainLogged.messages Logged.ERROR (fst (MainLogged.transform_image_logged data)) =
  [[Logged.Text "Invalid image file: "; Logged.ExnText e;
    Logged.Text ". Returning to user: "; Logged.Value invalid_image_file];
   [Logged.Text "Error during transformation: ";
    Logged.ExnText (HTTPException 400 invalid_image_file);
    Logged.Text ". Returning to user: ";
    Logged.Value
      (JDict [("detail",
               JStr ("Internal server error: "
                     ++ str_exn (HTTPException 400 invalid_image_file)))])]]
  /\ snd (MainLogged.transform_image_logged data) =
     Raise (HTTPException 500
              (JDict [("detail",
                       JStr ("Internal server error: "
                             ++ str_exn
                                  (HTTPException 400 invalid_image_file)))])).
Proof.
  intros Hv Hi Hd Ho.
  pose proof Hv as H. apply validate_input_Return in H
    as (_ & v' & t & _ & Ht & _).
  unfold MainLogged.transform_image_logged, Logged.catch.
  rewrite (transform_image_try_log data v t Hi Ht), Hd, Ho.
  cbn [fst snd]. split; [|reflexivity].
  rewrite !messages_app, messages_ERROR_info. reflexivity.
Qed.

Lemma unparseable_image_log_witness :
  List.length
    (MainLogged.messages Logged.ERROR
       (fst (MainLogged.transform_image_logged (PIL := HeaderImaging.imaging)
               (request [("image", JStr "aGVsbG8=");
                         ("transformation_type", JStr "grayscale")]))))
  = 2%nat
  /\ snd (MainLogged.transform_image_logged (PIL := HeaderImaging.imaging)
            (request [("image", JStr "aGVsbG8=");
                      ("transformation_type", JStr "grayscale")])) =
     Raise (HTTPException 500
              (JDict [("detail",
                       JStr ("Internal server error: "
                             ++ str_exn
                                  (HTTPException 400 invalid_image_file)))])).
Proof.
  destruct (unparseable_image_log (PIL := HeaderImaging.imaging)
              (request [("image", JStr "aGVsbG8=");
                        ("transformation_type", JStr "grayscale")])
              (JStr "aGVsbG8=") (bytes_of_string "hello")
              HeaderImaging.unidentified) as [Hlog Hres].
  - vm_compute. reflexivity.
  - reflexivity.
  - reflexivity.
  - reflexivity.
  - split; [now rewrite Hlog | exact Hres].
Defined.
